(** * A model of [calculator.py]: the [Calculator] state engine

    The engine keeps its operands as Python strings, turns them into
    floats only inside [calculate], [percentage] and the memory
    operations, and writes results back with [str].  The development
    follows that layering:

    - [Text]: the string operations the engine uses;
    - [F64]: Python's [float], an IEEE-754 binary64, on top of the
      Standard Library's [SpecFloat];
    - [Py]: the built-ins [float(s)], [str(x)], [int(x)],
      [float.is_integer], [math.sqrt] and [**];
    - [Calc]: the class [Calculator], one function per method;
    - [Session]: sequences of method calls, as the keys send them;
    - the properties of the engine. *)

From Stdlib Require Import ZArith List String Ascii Bool Lia.
From Stdlib Require Import QArith.
From Stdlib Require Import DecimalString DecimalPos.
From Stdlib Require Import Floats.SpecFloat.
Import ListNotations.

Local Open Scope string_scope.
Local Open Scope Z_scope.

(** ** Strings *)

Module Text.

(** A Python [str] is modelled by its UTF-8 bytes: equality, concatenation,
    [startswith("-")], [s[1:]] after an ASCII first character and the test
    ["." in s] agree on both views. *)

Definition is_empty (s : string) : bool :=
  match s with EmptyString => true | String _ _ => false end.

(** [c in s] for a one-character needle. *)
Fixpoint contains (c : ascii) (s : string) : bool :=
  match s with
  | EmptyString => false
  | String d r => Ascii.eqb c d || contains c r
  end.

(** Number of occurrences of [c] in [s]. *)
Fixpoint count (c : ascii) (s : string) : nat :=
  match s with
  | EmptyString => O
  | String d r => ((if Ascii.eqb c d then 1 else 0) + count c r)%nat
  end.

Definition is_digit (c : ascii) : bool :=
  let n := nat_of_ascii c in ((48 <=? n) && (n <=? 57))%nat.

Definition digit_value (c : ascii) : Z := Z.of_nat (nat_of_ascii c) - 48.

(** Does [s] start with the character [ch]? *)
Definition head_is (ch : ascii) (s : string) : bool :=
  match s with
  | String a _ => Ascii.eqb a ch
  | EmptyString => false
  end.

(** [n] copies of the character ["0"]. *)
Fixpoint zeros (n : nat) : string :=
  match n with O => "" | S k => String "0" (zeros k) end.

Fixpoint take (n : nat) (s : string) : string :=
  match n, s with
  | S k, String c r => String c (take k r)
  | _, _ => ""
  end.

Fixpoint drop (n : nat) (s : string) : string :=
  match n, s with
  | S k, String _ r => drop k r
  | _, _ => s
  end.

(** ASCII lower case, for the case-insensitive keywords of [float()]. *)
Definition lower (c : ascii) : ascii :=
  let n := nat_of_ascii c in
  if ((65 <=? n) && (n <=? 90))%nat then ascii_of_nat (n + 32) else c.

(** The decimal numeral of a positive number and of an integer. *)
Definition of_pos (p : positive) : string :=
  NilEmpty.string_of_uint (Pos.to_uint p).

Definition of_Z (z : Z) : string :=
  match z with
  | Z0 => "0"
  | Zpos p => of_pos p
  | Zneg p => String "-" (of_pos p)
  end.

End Text.

(** ** Binary64 *)

Module F64.

Definition prec : Z := 53.
Definition emax : Z := 1024.

Definition float := spec_float.

Definition zero : float := S754_zero false.
Definition add : float -> float -> float := SFadd prec emax.
Definition sub : float -> float -> float := SFsub prec emax.
Definition mul : float -> float -> float := SFmul prec emax.
Definition div : float -> float -> float := SFdiv prec emax.
Definition sqrt : float -> float := SFsqrt prec emax.
Definition eqb : float -> float -> bool := SFeqb.
Definition ltb : float -> float -> bool := SFltb.

Definition is_nan (x : float) : bool :=
  match x with S754_nan => true | _ => false end.

Definition sign_bit (x : float) : bool :=
  match x with
  | S754_zero s | S754_infinity s | S754_finite s _ _ => s
  | S754_nan => false
  end.

(** The quotient [p / q] of two positive integers, rounded to the nearest
    binary64 (ties to even), with sign [neg].  [SFdiv]'s finite case rounds
    the exact quotient of any two positive mantissas. *)
Definition of_ratio (neg : bool) (p q : positive) : float :=
  SFdiv prec emax (S754_finite neg p 0) (S754_finite false q 0).

(** [m * 10^e] rounded to the nearest binary64. *)
Definition of_decimal (neg : bool) (m : Z) (e : Z) : float :=
  match m with
  | Zpos p =>
      if 0 <=? e then of_ratio neg (p * Z.to_pos (10 ^ e)) 1
      else of_ratio neg p (Z.to_pos (10 ^ (- e)))
  | _ => S754_zero neg
  end.

Definition of_Z (z : Z) : float :=
  match z with
  | Z0 => zero
  | Zpos p => of_ratio false p 1
  | Zneg p => of_ratio true p 1
  end.

(** The exact value of a finite float, as a rational. *)
Definition to_Q (x : float) : option Q :=
  match x with
  | S754_zero _ => Some 0%Q
  | S754_finite s m e =>
      let n := if s then Zneg m else Zpos m in
      Some (if 0 <=? e then inject_Z (n * 2 ^ e)
            else Qmake n (Z.to_pos (2 ^ (- e))))
  | _ => None
  end.

(** The magnitude of a finite non-zero float as a fraction [num / den]. *)
Definition magnitude (m : positive) (e : Z) : positive * positive :=
  if 0 <=? e then ((m * Z.to_pos (2 ^ e))%positive, 1%positive)
  else (m, Z.to_pos (2 ^ (- e))).

End F64.

(** ** The Python built-ins the engine calls *)

Module Py.

Import Text.

(** The exceptions that the engine's [try] blocks can see. *)
Inductive exn := ValueError | ZeroDivisionError | OverflowError.

(** A computation that returns or raises. *)
Inductive outcome (A : Type) :=
| Ok (a : A)
| Raise (e : exn).
Arguments Ok {A} a.
Arguments Raise {A} e.

Definition bind {A B : Type} (m : outcome A) (k : A -> outcome B) : outcome B :=
  match m with
  | Ok a => k a
  | Raise e => Raise e
  end.

Notation "x <- m ;; k" := (bind m (fun x => k))
  (at level 61, m at next level, right associativity).

(** *** [float(s)]

    The grammar is the one of [float()] on ASCII text: surrounding white
    space, a sign, then [inf], [infinity] or [nan] in any case, or a decimal
    numeral with an optional exponent; an underscore may stand between two
    digits.  Text with decimal digits or spaces outside ASCII, which
    [float()] also accepts, is not covered: the engine never builds any. *)

Definition is_space (c : ascii) : bool :=
  let n := nat_of_ascii c in ((n =? 32) || ((9 <=? n) && (n <=? 13)))%nat.

Fixpoint lstrip (s : string) : string :=
  match s with
  | String c r => if is_space c then lstrip r else s
  | EmptyString => s
  end.

Fixpoint rstrip (s : string) : string :=
  match s with
  | EmptyString => ""
  | String c r =>
      let r' := rstrip r in
      if is_space c && is_empty r' then "" else String c r'
  end.

(** An underscore is legal only after a digit and before a digit; legal
    ones are dropped.  [prev] is the character just read. *)
Fixpoint strip_underscores (prev : ascii) (s : string) : option string :=
  match s with
  | EmptyString => if Ascii.eqb prev "_" then None else Some ""
  | String c r =>
      if Ascii.eqb c "_" then
        if is_digit prev then strip_underscores c r else None
      else if Ascii.eqb prev "_" && negb (is_digit c) then None
      else option_map (String c) (strip_underscores c r)
  end.

(** Reads a run of digits: the number read so far, how many digits were
    read, and the rest. *)
Fixpoint span_digits (acc : Z) (n : nat) (s : string) : Z * nat * string :=
  match s with
  | String c r =>
      if is_digit c then span_digits (10 * acc + digit_value c) (S n) r
      else (acc, n, s)
  | EmptyString => (acc, n, s)
  end.

Definition split_sign (s : string) : bool * string :=
  match s with
  | String "-" r => (true, r)
  | String "+" r => (false, r)
  | _ => (false, s)
  end.

Fixpoint lower_string (s : string) : string :=
  match s with
  | EmptyString => ""
  | String c r => String (lower c) (lower_string r)
  end.

(** The exponent part: nothing, or [e] or [E], a sign and at least one
    digit, up to the end of the text. *)
Definition parse_exponent (s : string) : option Z :=
  match s with
  | EmptyString => Some 0
  | String c r =>
      if Ascii.eqb (lower c) "e" then
        let (neg, r1) := split_sign r in
        match span_digits 0 0 r1 with
        | (v, S _, EmptyString) => Some (if neg then - v else v)
        | _ => None
        end
      else None
  end.

Definition parse_number (neg : bool) (s : string) : option F64.float :=
  let '(ip, ni, r1) := span_digits 0 0 s in
  let '(m, nf, r2) :=
    match r1 with
    | String "." r => span_digits ip 0 r
    | _ => (ip, O, r1)
    end in
  match (ni + nf)%nat with
  | O => None
  | S _ =>
      match parse_exponent r2 with
      | Some e => Some (F64.of_decimal neg m (e - Z.of_nat nf))
      | None => None
      end
  end.

Definition float_of_string (s : string) : option F64.float :=
  match strip_underscores Ascii.zero s with
  | None => None
  | Some s1 =>
      let (neg, body) := split_sign (rstrip (lstrip s1)) in
      let kw := lower_string body in
      if (kw =? "inf")%string || (kw =? "infinity")%string
      then Some (S754_infinity neg)
      else if (kw =? "nan")%string then Some S754_nan
      else parse_number neg body
  end.

(** [float(s)]: the parsed number, or [ValueError]. *)
Definition float (s : string) : outcome F64.float :=
  match float_of_string s with
  | Some x => Ok x
  | None => Raise ValueError
  end.

(** *** [repr] of a float: the shortest digits that read back as the float *)

Definition ndigits (p : positive) : Z := Z.of_nat (String.length (of_pos p)).

(** The decimal point position [D] of [P / Q]: [10^(D-1) <= P/Q < 10^D]. *)
Definition decpt (P Q : positive) : Z :=
  if (Q <=? P)%positive then ndigits (Z.to_pos (Zpos P / Zpos Q))
  else 1 - ndigits (Z.to_pos ((Zpos Q - 1) / Zpos P)).

(** [P / Q / 10^k] as a fraction. *)
Definition scaled (P Q : positive) (k : Z) : Z * Z :=
  if 0 <=? k then (Zpos P, Zpos Q * 10 ^ k) else (Zpos P * 10 ^ (- k), Zpos Q).

Definition nearest (lo r den : Z) : Z :=
  match 2 * r ?= den with
  | Lt => lo
  | Gt => lo + 1
  | Eq => if Z.even lo then lo else lo + 1
  end.

(** The integer [d] nearest to [P / Q / 10^k] among those for which
    [d * 10^k] reads back as [x], if there is one. *)
Definition candidate (x : F64.float) (P Q : positive) (k : Z) : option Z :=
  let (num, den) := scaled P Q k in
  let lo := num / den in
  let r := num mod den in
  let ok d := F64.eqb (F64.of_decimal false d k) x in
  if r =? 0 then Some lo
  else match ok lo, ok (lo + 1) with
       | true, true => Some (nearest lo r den)
       | true, false => Some lo
       | false, true => Some (lo + 1)
       | false, false => None
       end.

(** Tries [n], [n + 1], ... significant digits; after [fuel] failures the
    nearest decimal with that many digits is taken (17 digits always read
    back). *)
Fixpoint shortest_from (fuel : nat) (x : F64.float) (P Q : positive)
    (D n : Z) : Z * Z :=
  match fuel with
  | O =>
      let (num, den) := scaled P Q (D - n) in
      (nearest (num / den) (num mod den) den, D - n)
  | S f =>
      match candidate x P Q (D - n) with
      | Some d => (d, D - n)
      | None => shortest_from f x P Q D (n + 1)
      end
  end.

Fixpoint rstrip_zeros (s : string) : string :=
  match s with
  | EmptyString => ""
  | String c r =>
      let r' := rstrip_zeros r in
      if Ascii.eqb c "0" && is_empty r' then "" else String c r'
  end.

(** The digits of the magnitude [m * 2^e] and its decimal point position. *)
Definition shortest (m : positive) (e : Z) : string * Z :=
  let (P, Q) := F64.magnitude m e in
  let D := decpt P Q in
  let (d, k) := shortest_from 16 (S754_finite false m e) P Q D 1 in
  let ds := of_pos (Z.to_pos d) in
  (rstrip_zeros ds, Z.of_nat (String.length ds) + k).

(** The exponent suffix, [e+16] or [e-05]: a sign and two digits at least. *)
Definition exponent_suffix (x : Z) : string :=
  let a := of_Z (Z.abs x) in
  String "e" (String (if x <? 0 then "-" else "+")
    (if Z.abs x <? 10 then String "0" a else a)).

(** Lays the digits out: fixed notation when [-4 < decpt <= 16], else
    scientific.  With [dot0] an integral value in fixed notation gets
    [.0]; without it, it gets no decimal point at all. *)
Definition layout (dot0 : bool) (ds : string) (D : Z) : string :=
  let n := Z.of_nat (String.length ds) in
  if (D <=? -4) || (16 <? D) then
    match ds with
    | String c EmptyString => ds
    | String c r => String c (String "." r)
    | EmptyString => ds
    end ++ exponent_suffix (D - 1)
  else if D <=? 0 then "0." ++ zeros (Z.to_nat (- D)) ++ ds
  else if D <? n then take (Z.to_nat D) ds ++ "." ++ drop (Z.to_nat D) ds
  else ds ++ zeros (Z.to_nat (D - n)) ++ (if dot0 then ".0" else "").

Definition sign_prefix (plus neg : bool) : string :=
  if neg then "-" else if plus then "+" else "".

(** [plus] asks for a [+] on what is not negative. *)
Definition format_float (dot0 plus : bool) (x : F64.float) : string :=
  match x with
  | S754_nan => sign_prefix plus false ++ "nan"
  | S754_infinity s => sign_prefix plus s ++ "inf"
  | S754_zero s => sign_prefix plus s ++ layout dot0 "0" 1
  | S754_finite s m e =>
      let (ds, D) := shortest m e in
      sign_prefix plus s ++ layout dot0 ds D
  end.

Definition repr_float : F64.float -> string := format_float true false.

(** *** Values and [str] *)

(** What [calculate] can hold in [result]: a float, the [int] that replaces an
    integral float, the complex number that a negative base raised to a
    fractional power gives, or the text that the division guard puts there. *)
Inductive value :=
| VFloat (x : F64.float)
| VInt (z : Z)
| VComplex (re im : F64.float)
| VStr (s : string).

(** [str] of a complex number: bare imaginary part when the real part is
    [+0.0], else both parts in parentheses; no [.0] on integral parts. *)
Definition str_complex (re im : F64.float) : string :=
  match re with
  | S754_zero false => format_float false false im ++ "j"
  | _ => "(" ++ format_float false false re ++ format_float false true im
           ++ "j)"
  end.

Definition str (v : value) : string :=
  match v with
  | VFloat x => repr_float x
  | VInt z => of_Z z
  | VComplex re im => str_complex re im
  | VStr s => s
  end.

(** *** [float.is_integer], [int], [math.sqrt] *)

Definition is_integer (x : F64.float) : bool :=
  match x with
  | S754_zero _ => true
  | S754_finite _ m e => (0 <=? e) || (Zpos m mod 2 ^ (- e) =? 0)
  | _ => false
  end.

(** [int(x)] truncates towards zero and raises on infinities and NaN. *)
Definition int (x : F64.float) : outcome Z :=
  match x with
  | S754_zero _ => Ok 0
  | S754_finite s m e =>
      let a := if 0 <=? e then Zpos m * 2 ^ e else Zpos m / 2 ^ (- e) in
      Ok (if s then - a else a)
  | S754_infinity _ => Raise OverflowError
  | S754_nan => Raise ValueError
  end.

(** [math.sqrt]: a NaN that does not come from a NaN is a domain error. *)
Definition math_sqrt (x : F64.float) : outcome F64.float :=
  let r := F64.sqrt x in
  if F64.is_nan r && negb (F64.is_nan x) then Raise ValueError else Ok r.

(** *** [x ** y] on floats *)

(** The part of [**] that the platform's C library computes. *)
Class Libm := {
  (** [pow] on a finite positive base other than 1 and a finite non-zero
      exponent; raises when [pow] reports an error that is not an
      underflow. *)
  libm_pow : F64.float -> F64.float -> outcome F64.float;
  (** complex power of a finite negative base to a finite non-integral
      exponent: real and imaginary part, or an overflow. *)
  complex_pow : F64.float -> F64.float -> outcome (F64.float * F64.float)
}.

Definition one : F64.float := F64.of_Z 1.

Definition is_inf (x : F64.float) : bool :=
  match x with S754_infinity _ => true | _ => false end.

(** [fmod(fabs(y), 2.0) == 1.0] *)
Definition is_odd_integer (y : F64.float) : bool :=
  match y with
  | S754_finite _ m e =>
      if e =? 0 then Z.odd (Zpos m)
      else if 0 <? e then false
      else (Zpos m mod 2 ^ (- e) =? 0) && Z.odd (Zpos m / 2 ^ (- e))
  | _ => false
  end.

Definition copysign_zero (x : F64.float) : F64.float :=
  S754_zero (F64.sign_bit x).

Section Pow.
Context {L : Libm}.

(** The special cases are settled before the C library is asked, in this
    order: exponent zero, NaN operands, infinite exponent, infinite base,
    zero base, negative base. *)
Definition float_pow (x y : F64.float) : outcome value :=
  if F64.eqb y F64.zero then Ok (VFloat one)
  else if F64.is_nan x then Ok (VFloat x)
  else if F64.is_nan y then Ok (VFloat (if F64.eqb x one then one else y))
  else if is_inf y then
    let ax := SFabs x in
    if F64.eqb ax one then Ok (VFloat one)
    else if Bool.eqb (F64.ltb F64.zero y) (F64.ltb one ax)
    then Ok (VFloat (SFabs y))
    else Ok (VFloat F64.zero)
  else if is_inf x then
    let odd := is_odd_integer y in
    if F64.ltb F64.zero y then Ok (VFloat (if odd then x else SFabs x))
    else Ok (VFloat (if odd then copysign_zero x else F64.zero))
  else if F64.eqb x F64.zero then
    if F64.ltb y F64.zero then Raise ZeroDivisionError
    else Ok (VFloat (if is_odd_integer y then x else F64.zero))
  else
    let neg := F64.ltb x F64.zero in
    if neg && negb (is_integer y) then
      z <- complex_pow x y ;; Ok (VComplex (fst z) (snd z))
    else
      let ax := if neg then SFopp x else x in
      let negate := neg && is_odd_integer y in
      if F64.eqb ax one then Ok (VFloat (if negate then SFopp one else one))
      else
        r <- libm_pow ax y ;; Ok (VFloat (if negate then SFopp r else r)).

End Pow.

End Py.

(** ** The class [Calculator] *)

Module Calc.

Import Text Py.

Record Calculator := mkCalculator {
  current_input : string;
  previous_input : string;
  operation : option string;
  memory : F64.float;
  history : list string;
  last_operation : string
}.

(** [__init__] *)
Definition init : Calculator :=
  {| current_input := "0";
     previous_input := "";
     operation := None;
     memory := F64.zero;
     history := [];
     last_operation := "" |}.

Definition set_current_input (v : string) (c : Calculator) : Calculator :=
  {| current_input := v;
     previous_input := previous_input c;
     operation := operation c;
     memory := memory c;
     history := history c;
     last_operation := last_operation c |}.

Definition set_memory (m : F64.float) (c : Calculator) : Calculator :=
  {| current_input := current_input c;
     previous_input := previous_input c;
     operation := operation c;
     memory := m;
     history := history c;
     last_operation := last_operation c |}.

(** Truth value of [self.operation]: [None] and the empty text are false. *)
Definition truthy (o : option string) : bool :=
  match o with
  | Some s => negb (is_empty s)
  | None => false
  end.

(** [self.operation and self.previous_input] *)
Definition pending (c : Calculator) : bool :=
  truthy (operation c) && negb (is_empty (previous_input c)).

Definition add_to_input (value : string) (c : Calculator) : Calculator :=
  if (value =? ".")%string && contains "." (current_input c) then c
  else if (current_input c =? "0")%string && negb (value =? ".")%string
  then set_current_input value c
  else set_current_input (current_input c ++ value) c.

Definition clear_entry (c : Calculator) : Calculator :=
  let c1 := set_current_input "0" c in
  if truthy (operation c1) && is_empty (current_input c1) then
    {| current_input := current_input c1;
       previous_input := previous_input c1;
       operation := None;
       memory := memory c1;
       history := history c1;
       last_operation := "" |}
  else c1.

(** [memory] is the one field that [clear_all] keeps. *)
Definition clear_all (c : Calculator) : Calculator :=
  {| current_input := "0";
     previous_input := "";
     operation := None;
     memory := memory c;
     history := [];
     last_operation := "" |}.

(** [self.history.append(e)], then [pop(0)] when that made eleven. *)
Definition log (e : string) (h : list string) : list string :=
  let h1 := (h ++ [e])%list in
  if (10 <? List.length h1)%nat then List.tl h1 else h1.

Section Engine.
Context {L : Libm}.

(** The [if]/[elif] chain over [self.operation]; [None] is the final
    [else], which returns ["Error"] and leaves the [try] at once. *)
Definition apply_operation (op : string) (num1 num2 : F64.float)
  : option (outcome value) :=
  if (op =? "+")%string then Some (Ok (VFloat (F64.add num1 num2)))
  else if (op =? "-")%string then Some (Ok (VFloat (F64.sub num1 num2)))
  else if (op =? "*")%string then Some (Ok (VFloat (F64.mul num1 num2)))
  else if (op =? "/")%string then
    Some (Ok (if negb (F64.eqb num2 F64.zero)
              then VFloat (F64.div num1 num2)
              else VStr "Error: Div/0"))
  else if (op =? "^")%string then Some (float_pow num1 num2)
  else if (op =? "√")%string then
    Some (r <- math_sqrt num1 ;; Ok (VFloat r))
  else None.

(** [int(result) if result.is_integer() else result], for a float only. *)
Definition trim_result (v : value) : outcome value :=
  match v with
  | VFloat x => if is_integer x then z <- int x ;; Ok (VInt z) else Ok v
  | _ => Ok v
  end.

Definition operation_text (c : Calculator) : string :=
  match operation c with Some op => op | None => "None" end.

(** The line that a completed evaluation adds to the history. *)
Definition history_entry (c : Calculator) (result : value) : string :=
  previous_input c ++ " " ++ operation_text c ++ " " ++ current_input c
    ++ " = " ++ str result.

(** The body of the [try]: [None] is the early return of ["Error"]. *)
Definition evaluate_pending (c : Calculator) : outcome (option value) :=
  num1 <- float (previous_input c) ;;
  num2 <- (if is_empty (current_input c) then Ok num1
           else float (current_input c)) ;;
  match apply_operation (operation_text c) num1 num2 with
  | None => Ok None
  | Some r => v <- r ;; w <- trim_result v ;; Ok (Some w)
  end.

Definition complete (c : Calculator) (result : value) : Calculator :=
  {| current_input := str result;
     previous_input := previous_input c;
     operation := None;
     memory := memory c;
     history := log (history_entry c result) (history c);
     last_operation := "" |}.

Definition calculate (c : Calculator) : Calculator * value :=
  if negb (truthy (operation c)) || is_empty (previous_input c) then
    (c, VStr (if is_empty (current_input c) then "0" else current_input c))
  else
    match evaluate_pending c with
    | Ok (Some result) => (complete c result, result)
    | Ok None => (c, VStr "Error")
    | Raise ZeroDivisionError => (clear_all c, VStr "Error: Div/0")
    | Raise _ => (clear_all c, VStr "Error")
    end.

Definition set_operation (op : string) (c : Calculator) : Calculator :=
  if is_empty (current_input c) then c
  else
    let c1 := if pending c then fst (calculate c) else c in
    {| current_input := "";
       previous_input := current_input c1;
       operation := Some op;
       memory := memory c1;
       history := history c1;
       last_operation := current_input c1 ++ " " ++ op |}.

End Engine.

(** [float()] raises nothing but [ValueError], which these three methods
    swallow. *)
Definition memory_add (c : Calculator) : Calculator :=
  match float (current_input c) with
  | Ok x => set_memory (F64.add (memory c) x) c
  | Raise _ => c
  end.

Definition memory_subtract (c : Calculator) : Calculator :=
  match float (current_input c) with
  | Ok x => set_memory (F64.sub (memory c) x) c
  | Raise _ => c
  end.

Definition memory_recall (c : Calculator) : Calculator :=
  set_current_input (str (VFloat (memory c))) c.

Definition memory_clear (c : Calculator) : Calculator :=
  set_memory F64.zero c.

Definition percentage (c : Calculator) : Calculator :=
  match float (current_input c) with
  | Ok x => set_current_input (str (VFloat (F64.div x (F64.of_Z 100)))) c
  | Raise _ => c
  end.

Definition toggle_sign (c : Calculator) : Calculator :=
  match current_input c with
  | String "-" rest => set_current_input rest c
  | s => set_current_input (String "-" s) c
  end.

End Calc.

(** ** Sessions: sequences of method calls *)

Module Session.

Import Text Py Calc.

(** One call of a public method of [Calculator]. *)
Inductive action :=
| AddToInput (value : string)
| SetOperation (op : string)
| Calculate
| ClearEntry
| ClearAll
| MemoryAdd
| MemorySubtract
| MemoryRecall
| MemoryClear
| Percentage
| ToggleSign.

(** What the keypad and the keyboard can send: [add_to_input] gets one
    digit or the decimal point, [set_operation] one of the six operators. *)
Definition is_key (v : string) : bool :=
  match v with
  | String c EmptyString => is_digit c || Ascii.eqb c "."
  | _ => false
  end.

Definition is_operator (op : string) : bool :=
  existsb (String.eqb op) ["+"; "-"; "*"; "/"; "^"; "√"].

Definition dispatched (a : action) : bool :=
  match a with
  | AddToInput v => is_key v
  | SetOperation op => is_operator op
  | _ => true
  end.

(** Typing the characters of [a] one at a time. *)
Fixpoint enter (a : string) (c : Calculator) : Calculator :=
  match a with
  | EmptyString => c
  | String k r => enter r (add_to_input (String k "") c)
  end.

(** Typing a list of keys. *)
Fixpoint type_keys (ks : list string) (c : Calculator) : Calculator :=
  match ks with
  | [] => c
  | k :: r => type_keys r (add_to_input k c)
  end.

Section Run.
Context {L : Libm}.

Definition step (a : action) (c : Calculator) : Calculator :=
  match a with
  | AddToInput v => add_to_input v c
  | SetOperation op => set_operation op c
  | Calculate => fst (calculate c)
  | ClearEntry => clear_entry c
  | ClearAll => clear_all c
  | MemoryAdd => memory_add c
  | MemorySubtract => memory_subtract c
  | MemoryRecall => memory_recall c
  | MemoryClear => memory_clear c
  | Percentage => percentage c
  | ToggleSign => toggle_sign c
  end.

Fixpoint run (l : list action) (c : Calculator) : Calculator :=
  match l with
  | [] => c
  | a :: r => run r (step a c)
  end.

(** States that some sequence of calls produces from a new calculator. *)
Inductive reachable : Calculator -> Prop :=
| reachable_init : reachable init
| reachable_step a c : reachable c -> reachable (step a c).

(** The same, when every call is one that the keys can send. *)
Inductive key_reachable : Calculator -> Prop :=
| key_reachable_init : key_reachable init
| key_reachable_step a c :
    dispatched a = true -> key_reachable c -> key_reachable (step a c).

(** What one call does to the log of completed evaluations. *)
Inductive effect :=
| Kept
| Logged (entry : string)
| Cleared.

Definition calculate_effect (c : Calculator) : effect :=
  if negb (truthy (operation c)) || is_empty (previous_input c) then Kept
  else
    match evaluate_pending c with
    | Ok (Some result) => Logged (history_entry c result)
    | Ok None => Kept
    | Raise _ => Cleared
    end.

Definition effect_of (a : action) (c : Calculator) : effect :=
  match a with
  | Calculate => calculate_effect c
  | SetOperation _ =>
      if negb (is_empty (current_input c)) && pending c
      then calculate_effect c else Kept
  | ClearAll => Cleared
  | _ => Kept
  end.

Definition record (ef : effect) (entries : list string) : list string :=
  match ef with
  | Kept => entries
  | Logged e => (entries ++ [e])%list
  | Cleared => []
  end.

(** Every entry logged since the history was last emptied, oldest first:
    the history as it would be without the bound. *)
Fixpoint entries_of (l : list action) (c : Calculator)
    (entries : list string) : list string :=
  match l with
  | [] => entries
  | a :: r => entries_of r (step a c) (record (effect_of a c) entries)
  end.

End Run.

(** The last [n] elements of a list. *)
Definition lastn {A : Type} (n : nat) (l : list A) : list A :=
  skipn (List.length l - n) l.

(** A C library for the closed examples of this file; none of them gets as
    far as the C library.  The theorems are stated for every [Libm]. *)
Definition no_libm : Libm :=
  {| libm_pow := fun _ _ => Raise OverflowError;
     complex_pow := fun _ _ => Raise OverflowError |}.

End Session.

(** ** The window: what it shows and what its keys call *)

Module Gui.

Import Text Py Calc Session.

(** [s.rstrip(ch)] for a single character [ch]. *)
Fixpoint rstrip_char (ch : ascii) (s : string) : string :=
  match s with
  | EmptyString => ""
  | String a r =>
      let r' := rstrip_char ch r in
      if Ascii.eqb a ch && is_empty r' then "" else String a r'
  end.

(** The text of the main label: with a ["."] anywhere in the input, the
    zeros at its end go, then the dots at its end. *)
Definition display_text (t : string) : string :=
  if contains "." t then rstrip_char "." (rstrip_char "0" t) else t.

(** White space for [str.strip()], within ASCII. *)
Definition is_whitespace (c : ascii) : bool :=
  let n := nat_of_ascii c in
  ((n =? 32) || ((9 <=? n) && (n <=? 13)) || ((28 <=? n) && (n <=? 31)))%nat.

Fixpoint lstrip_ws (s : string) : string :=
  match s with
  | String a r => if is_whitespace a then lstrip_ws r else s
  | EmptyString => s
  end.

Fixpoint rstrip_ws (s : string) : string :=
  match s with
  | EmptyString => ""
  | String a r =>
      let r' := rstrip_ws r in
      if is_whitespace a && is_empty r' then "" else String a r'
  end.

Definition strip (s : string) : string := lstrip_ws (rstrip_ws s).

(** [s.split(ch)[0]]: what stands before the first [ch]. *)
Fixpoint before (ch : ascii) (s : string) : string :=
  match s with
  | EmptyString => ""
  | String a r => if Ascii.eqb a ch then "" else String a (before ch r)
  end.

(** The text of the small label: the pending operation, else the last
    history line up to its ["="], else nothing. *)
Definition history_text (c : Calculator) : string :=
  if negb (is_empty (last_operation c)) then last_operation c
  else
    match history c with
    | [] => ""
    | _ :: _ => strip (before "=" (List.last (history c) ""))
    end.

(** What [_update_display] writes into the two labels. *)
Definition update_display (c : Calculator) : string * string :=
  (display_text (current_input c), history_text c).

(** [str.isdigit()], within ASCII: not empty, digits only. *)
Fixpoint all_digits (s : string) : bool :=
  match s with
  | EmptyString => true
  | String a r => is_digit a && all_digits r
  end.

Definition isdigit (s : string) : bool := negb (is_empty s) && all_digits s.

Fixpoint starts_with (p s : string) : bool :=
  match p, s with
  | EmptyString, _ => true
  | String a p', String b s' => Ascii.eqb a b && starts_with p' s'
  | String _ _, EmptyString => false
  end.

(** [needle in hay] on texts. *)
Fixpoint is_in (needle hay : string) : bool :=
  match hay with
  | EmptyString => is_empty needle
  | String _ r => starts_with needle hay || is_in needle r
  end.

(** The method that [_on_button_click] calls for a button text; [None]
    when no branch takes the text. *)
Definition button_action (t : string) : option action :=
  if (t =? "AC")%string then Some ClearAll
  else if (t =? "C")%string then Some ClearEntry
  else if isdigit t || (t =? ".")%string then Some (AddToInput t)
  else if is_in t "+-*/^√" then Some (SetOperation t)
  else if (t =? "=")%string then Some Calculate
  else if (t =? "±")%string then Some ToggleSign
  else if (t =? "%")%string then Some Percentage
  else if (t =? "MC")%string then Some MemoryClear
  else if (t =? "M+")%string then Some MemoryAdd
  else if (t =? "M-")%string then Some MemorySubtract
  else if (t =? "MR")%string then Some MemoryRecall
  else None.

(** The buttons of the window: text, row, column. *)
Definition buttons : list (string * nat * nat) :=
  [("MC", 0, 0); ("MR", 0, 1); ("M-", 0, 2); ("M+", 0, 3);
   ("C", 1, 0); ("√", 1, 1); ("^", 1, 2); ("/", 1, 3);
   ("7", 2, 0); ("8", 2, 1); ("9", 2, 2); ("*", 2, 3);
   ("4", 3, 0); ("5", 3, 1); ("6", 3, 2); ("-", 3, 3);
   ("1", 4, 0); ("2", 4, 1); ("3", 4, 2); ("+", 4, 3);
   ("AC", 5, 0); ("0", 5, 1); (".", 5, 2); ("=", 5, 3)]%nat.

Definition button_texts : list string :=
  List.map (fun b => fst (fst b)) buttons.

(** [key_mapping]: the character of a key press and the button it stands
    for.  Return is character 13, backspace character 8. *)
Definition key_mapping : list (string * string) :=
  [("0", "0"); ("1", "1"); ("2", "2"); ("3", "3"); ("4", "4");
   ("5", "5"); ("6", "6"); ("7", "7"); ("8", "8"); ("9", "9");
   (".", "."); ("+", "+"); ("-", "-"); ("*", "*"); ("/", "/");
   ("=", "="); (String "013" "", "="); (String "008" "", "C"); ("%", "%");
   ("^", "^"); ("q", "√"); ("Q", "√");
   ("c", "C"); ("a", "AC"); ("m", "M+"); ("r", "MR")].

Fixpoint lookup (k : string) (m : list (string * string)) : option string :=
  match m with
  | [] => None
  | (k', v) :: r => if (k =? k')%string then Some v else lookup k r
  end.

(** The method that a key press ends up calling. *)
Definition key_action (char : string) : option action :=
  match lookup char key_mapping with
  | Some t => button_action t
  | None => None
  end.

Section Events.
Context {L : Libm}.

Definition on_button_click (t : string) (c : Calculator) : Calculator :=
  match button_action t with
  | Some a => step a c
  | None => c
  end.

Definition on_key_press (char : string) (c : Calculator) : Calculator :=
  match lookup char key_mapping with
  | Some t => on_button_click t c
  | None => c
  end.

(** States that clicks on the buttons and key presses produce. *)
Inductive gui_reachable : Calculator -> Prop :=
| gui_init : gui_reachable init
| gui_click t c :
    In t button_texts -> gui_reachable c ->
    gui_reachable (on_button_click t c)
| gui_key char c :
    gui_reachable c -> gui_reachable (on_key_press char c).

End Events.

End Gui.

(** ** Vocabulary of the properties *)

Import Text Py Calc Session.

(** [num2 = float(self.current_input) if self.current_input else num1] *)
Definition right_operand (c : Calculator) (num1 : F64.float)
  : option F64.float :=
  if is_empty (current_input c) then Some num1
  else float_of_string (current_input c).

(** The result as [calculate] returns it: an [int] for an integral float. *)
Definition trimmed (x : F64.float) : value :=
  match x with
  | S754_zero _ => VInt 0
  | S754_finite s m e =>
      if is_integer x then
        VInt (let a := if 0 <=? e then Zpos m * 2 ^ e else Zpos m / 2 ^ (- e) in
              if s then - a else a)
      else VFloat x
  | _ => VFloat x
  end.

(** Scenarios, as sessions from a new calculator. *)
Definition five_by_zero : Calculator :=
  add_to_input "0" (set_operation (L := no_libm) "/" (add_to_input "5" init)).

Definition root_of_16 : Calculator :=
  set_operation (L := no_libm) "√" (enter "16" init).

Definition root_of_16_point : Calculator := add_to_input "." root_of_16.

Definition root_of_minus_4 : Calculator :=
  set_operation (L := no_libm) "√" (toggle_sign (enter "4" init)).

(** The state from which [set_operation] takes the left operand: the
    pending operation, if there is one, is evaluated first. *)
Definition evaluated_first {L : Libm} (c : Calculator) : Calculator :=
  if pending c then fst (calculate c) else c.

Definition five_plus_three {L : Libm} : Calculator :=
  enter "3" (set_operation "+" (enter "5" init)).

(** The keys typed, written one after the other. *)
Fixpoint join (ks : list string) : string :=
  match ks with
  | [] => ""
  | k :: r => k ++ join r
  end.

(** What typing [ks] on a bare ["0"] shows: the keys one after the other,
    once the zeros typed first are dropped, with the ["0"] kept before a
    decimal point typed first. *)
Fixpoint typed_text (ks : list string) : string :=
  match ks with
  | [] => "0"
  | k :: r =>
      if (k =? "0")%string then typed_text r
      else if (k =? ".")%string then "0" ++ join ks
      else join ks
  end.

Definition dots (s : string) : nat := count "." s.

(** One more evaluation: [+], [1], [=]. *)
Definition add_one : list action :=
  [SetOperation "+"; AddToInput "1"; Calculate].

(** [1] typed, then eleven evaluations. *)
Definition eleven_sums : list action :=
  AddToInput "1" :: List.concat (repeat add_one 11).

(** The history after one call, from the history before. *)
Definition history_after (ef : effect) (h : list string) : list string :=
  match ef with
  | Kept => h
  | Logged e => log e h
  | Cleared => []
  end.

(** A text with something to show after an optional minus sign: neither
    empty nor a lone ["-"], and with one leading ["-"] at most. *)
Definition shown (s : string) : bool :=
  match s with
  | EmptyString => false
  | String a r =>
      if Ascii.eqb a "-" then negb (is_empty r) && negb (head_is "-" r)
      else true
  end.

(** The current input shows something, or an operation is selected and
    the input is empty, with or without a sign. *)
Definition input_invariant (c : Calculator) : Prop :=
  shown (current_input c) = true \/
  ((current_input c = "" \/ current_input c = "-") /\
   truthy (operation c) = true).

(** The only text that [calculate] ever holds in [result]. *)
Definition result_shape (v : value) : Prop :=
  match v with
  | VStr s => s = "Error: Div/0"
  | _ => True
  end.

(** Python's [x op y] on floats, for the four operators [+ - * ^]. *)
Definition float_op {L : Libm} (op : string) (x y : F64.float)
  : outcome value :=
  if (op =? "+")%string then Ok (VFloat (F64.add x y))
  else if (op =? "-")%string then Ok (VFloat (F64.sub x y))
  else if (op =? "*")%string then Ok (VFloat (F64.mul x y))
  else float_pow x y.

(** A result as [calculate] returns it. *)
Definition returned (v : value) : value :=
  match v with
  | VFloat x => trimmed x
  | _ => v
  end.

(** The float is finite and its exact value is an integer. *)
Definition integral (x : F64.float) : Prop :=
  exists (z : Z) (q : Q), F64.to_Q x = Some q /\ (q == inject_Z z)%Q.

(** The number that an unsigned decimal numeral denotes. *)
Definition decimal_value (s : string) : option Q :=
  let '(m, _, r1) := span_digits 0 0 s in
  match r1 with
  | EmptyString => Some (inject_Z m)
  | String "." r =>
      match span_digits m 0 r with
      | (m2, nf, EmptyString) => Some (Qmake m2 (Z.to_pos (10 ^ Z.of_nat nf)))
      | _ => None
      end
  | _ => None
  end.

(** [a], [op], [b] typed on [c]. *)
Definition typed {L : Libm} (a op b : string) (c : Calculator) : Calculator :=
  enter b (set_operation op (enter a c)).

(** A call that writes the memory register. *)
Definition touches_memory (a : action) : bool :=
  match a with
  | MemoryAdd | MemorySubtract | MemoryClear => true
  | _ => false
  end.

(** The text starts with two minus signs. *)
Definition double_minus (s : string) : bool :=
  match s with
  | String a r => Ascii.eqb a "-" && head_is "-" r
  | EmptyString => false
  end.

(** [last_operation] says what is pending, and nothing when nothing is. *)
Definition label_in_step (c : Calculator) : Prop :=
  match operation c with
  | Some op => last_operation c = previous_input c ++ " " ++ op
  | None => last_operation c = ""
  end.

(** The pending operation, if any, is one of the six operators. *)
Definition operator_known (c : Calculator) : Prop :=
  forall op, operation c = Some op -> is_operator op = true.


(** Sessions for the closed examples. *)
Definition percent_of_5 : Calculator :=
  set_operation (L := no_libm) "%" (add_to_input "5" init).


Definition tiny : Calculator :=
  Gui.on_key_press (L := no_libm) "%"
    (Gui.on_key_press (L := no_libm) "%"
       (Gui.on_key_press (L := no_libm) "%"
          (Gui.on_key_press (L := no_libm) "%"
             (Gui.on_key_press (L := no_libm) "%"
                (Gui.on_button_click (L := no_libm) "5"
                   (Gui.on_button_click (L := no_libm) "."
                      (Gui.on_button_click (L := no_libm) "1" init))))))).


(** A session of calls that leave the memory register alone. *)
Definition five_by_zero_session : list action :=
  [AddToInput "5"; SetOperation "/"; AddToInput "0"; Calculate;
   MemoryRecall; Percentage; ToggleSign; ClearEntry; ClearAll].

(** ** Parsing and evaluation: first facts *)

Lemma float_of_string_nonempty s x :
  float_of_string s = Some x -> is_empty s = false.
Proof.
  destruct s; [discriminate | reflexivity].
Qed.

Lemma truthy_some_nonempty op :
  is_empty op = false -> truthy (Some op) = true.
Proof.
  intros H. unfold truthy. now rewrite H.
Qed.

Section Evaluation.
Context {L : Libm}.

(** [calculate] with an operation pending goes through the [try]. *)
Lemma calculate_pending c op x :
  operation c = Some op -> is_empty op = false ->
  float_of_string (previous_input c) = Some x ->
  calculate c =
    match evaluate_pending c with
    | Ok (Some result) => (complete c result, result)
    | Ok None => (c, VStr "Error")
    | Raise ZeroDivisionError => (clear_all c, VStr "Error: Div/0")
    | Raise _ => (clear_all c, VStr "Error")
    end.
Proof.
  intros Hop Hne Hx. unfold calculate.
  rewrite Hop, (truthy_some_nonempty _ Hne).
  now rewrite (float_of_string_nonempty _ _ Hx).
Qed.

(** The two operands, once both parse. *)
Lemma evaluate_pending_operands c op x y :
  operation c = Some op ->
  float_of_string (previous_input c) = Some x ->
  right_operand c x = Some y ->
  evaluate_pending c =
    match apply_operation op x y with
    | None => Ok None
    | Some r => v <- r ;; w <- trim_result v ;; Ok (Some w)
    end.
Proof.
  intros Hop Hx Hy. unfold evaluate_pending, operation_text, float.
  rewrite Hop, Hx. unfold right_operand in Hy. cbn [bind].
  destruct (is_empty (current_input c)).
  - injection Hy as <-. reflexivity.
  - rewrite Hy. reflexivity.
Qed.

Lemma trim_result_float x : trim_result (VFloat x) = Ok (trimmed x).
Proof.
  destruct x as [s | s | | s m e]; try reflexivity.
  unfold trim_result, trimmed.
  destruct (is_integer (S754_finite s m e)); reflexivity.
Qed.

End Evaluation.

(** ** Clearing *)

Lemma clear_entry_sets_input c : clear_entry c = set_current_input "0" c.
Proof.
  unfold clear_entry. cbn [set_current_input current_input is_empty].
  now rewrite andb_false_r.
Qed.

(** C3. [clear_entry] sets [current_input] to ["0"] and changes nothing
    else: [previous_input], [operation], [last_operation], [history] and
    [memory] are those of the state before.  The branch that would clear a
    pending operation is never taken, whatever [operation] and
    [previous_input] hold. *)
Theorem clear_entry_keeps_pending_operation :
  forall c : Calculator,
    clear_entry c = set_current_input "0" c /\
    current_input (clear_entry c) = "0" /\
    previous_input (clear_entry c) = previous_input c /\
    operation (clear_entry c) = operation c /\
    last_operation (clear_entry c) = last_operation c /\
    history (clear_entry c) = history c /\
    memory (clear_entry c) = memory c.
Proof.
  intros c. rewrite clear_entry_sets_input. now repeat split.
Qed.

(** ** Evaluation: errors *)

Lemma negative_sqrt_raises x :
  F64.ltb x F64.zero = true -> math_sqrt x = Raise ValueError.
Proof.
  destruct x as [s | [] | | [] m e]; cbn; try discriminate; reflexivity.
Qed.

(** C10. With [√] pending and a [previous_input] that parses to a negative
    number, [calculate] returns ["Error"], not the division indicator, and
    resets: [current_input] is ["0"], [previous_input] and [last_operation]
    are empty, [operation] is unset, [history] is empty, and [memory] is
    the one of the state before. *)
Theorem sqrt_of_negative_is_generic_error :
  forall (L : Libm) (c : Calculator) (x : F64.float),
    operation c = Some "√" ->
    float_of_string (previous_input c) = Some x ->
    F64.ltb x F64.zero = true ->
    snd (calculate c) = VStr "Error" /\
    snd (calculate c) <> VStr "Error: Div/0" /\
    fst (calculate c) = clear_all c /\
    current_input (fst (calculate c)) = "0" /\
    previous_input (fst (calculate c)) = "" /\
    operation (fst (calculate c)) = None /\
    last_operation (fst (calculate c)) = "" /\
    history (fst (calculate c)) = [] /\
    memory (fst (calculate c)) = memory c.
Proof.
  intros L c x Hop Hx Hneg.
  assert (E : calculate c = (clear_all c, VStr "Error")).
  { rewrite (calculate_pending c "√" x Hop eq_refl Hx).
    unfold evaluate_pending, operation_text, float.
    rewrite Hop, Hx. cbn [bind].
    destruct (is_empty (current_input c)).
    - cbn [bind]. unfold apply_operation. cbn [String.eqb Ascii.eqb Bool.eqb].
      now rewrite (negative_sqrt_raises x Hneg).
    - destruct (float_of_string (current_input c)) as [y |]; cbn [bind].
      + unfold apply_operation. cbn [String.eqb Ascii.eqb Bool.eqb].
        now rewrite (negative_sqrt_raises x Hneg).
      + reflexivity. }
  rewrite E. cbn [fst snd]. repeat split. discriminate.
Qed.

Lemma sqrt_of_negative_is_generic_error_witness :
  operation root_of_minus_4 = Some "√" /\
  snd (calculate (L := no_libm) root_of_minus_4) = VStr "Error" /\
  fst (calculate (L := no_libm) root_of_minus_4) = clear_all root_of_minus_4.
Proof.
  pose proof (sqrt_of_negative_is_generic_error no_libm root_of_minus_4
                (S754_finite true 4503599627370496 (-50))
                eq_refl eq_refl eq_refl) as H.
  split; [reflexivity | split; [apply H | apply H]].
Defined.

(** ** Evaluation: division by zero *)

(** C1, as stated, fails: after ["5"], [/], ["0"] the pending operation is
    [/] and the right operand is zero, yet [calculate] does not reset.  The
    indicator becomes the current input, the left operand stays and the
    history gets an entry. *)
Lemma five_by_zero_is_not_reset :
  operation five_by_zero = Some "/" /\
  previous_input five_by_zero = "5" /\
  float_of_string (current_input five_by_zero) = Some F64.zero /\
  snd (calculate (L := no_libm) five_by_zero) = VStr "Error: Div/0" /\
  current_input (fst (calculate (L := no_libm) five_by_zero))
    = "Error: Div/0" /\
  previous_input (fst (calculate (L := no_libm) five_by_zero)) = "5" /\
  history (fst (calculate (L := no_libm) five_by_zero))
    = ["5 / 0 = Error: Div/0"] /\
  ~ (current_input (fst (calculate (L := no_libm) five_by_zero)) = "0" /\
     previous_input (fst (calculate (L := no_libm) five_by_zero)) = "" /\
     operation (fst (calculate (L := no_libm) five_by_zero)) = None /\
     history (fst (calculate (L := no_libm) five_by_zero)) = [] /\
     memory (fst (calculate (L := no_libm) five_by_zero))
       = memory five_by_zero).
Proof.
  repeat split; try reflexivity.
  intros [H _]. vm_compute in H. discriminate.
Qed.

(** C1, amended.  With [/] pending, a [previous_input] that parses and a
    right operand equal to zero, [calculate] returns ["Error: Div/0"] as an
    ordinary result and does not reset.  The indicator becomes
    [current_input], [previous_input] stays, [operation] is unset,
    [last_operation] is emptied, the line
    ["<previous_input> / <current_input> = Error: Div/0"] is logged in
    [history], and [memory] is untouched. *)
Theorem divide_by_zero_is_an_ordinary_result :
  forall (L : Libm) (c : Calculator) (x y : F64.float),
    operation c = Some "/" ->
    float_of_string (previous_input c) = Some x ->
    right_operand c x = Some y ->
    F64.eqb y F64.zero = true ->
    snd (calculate c) = VStr "Error: Div/0" /\
    current_input (fst (calculate c)) = "Error: Div/0" /\
    previous_input (fst (calculate c)) = previous_input c /\
    operation (fst (calculate c)) = None /\
    last_operation (fst (calculate c)) = "" /\
    history (fst (calculate c))
      = log (previous_input c ++ " / " ++ current_input c
               ++ " = Error: Div/0") (history c) /\
    memory (fst (calculate c)) = memory c.
Proof.
  intros L c x y Hop Hx Hy Hz.
  assert (E : calculate c
              = (complete c (VStr "Error: Div/0"), VStr "Error: Div/0")).
  { rewrite (calculate_pending c "/" x Hop eq_refl Hx).
    rewrite (evaluate_pending_operands c "/" x y Hop Hx Hy).
    unfold apply_operation. cbn [String.eqb Ascii.eqb Bool.eqb].
    rewrite Hz. reflexivity. }
  rewrite E. cbn [fst snd complete current_input previous_input operation
                  last_operation history memory].
  repeat split.
  unfold history_entry, operation_text. rewrite Hop. reflexivity.
Qed.

Lemma divide_by_zero_is_an_ordinary_result_witness :
  operation five_by_zero = Some "/" /\
  F64.eqb F64.zero F64.zero = true /\
  current_input (fst (calculate (L := no_libm) five_by_zero))
    = "Error: Div/0" /\
  previous_input (fst (calculate (L := no_libm) five_by_zero))
    = previous_input five_by_zero.
Proof.
  pose proof (divide_by_zero_is_an_ordinary_result no_libm five_by_zero
                (S754_finite false 5629499534213120 (-50)) F64.zero
                eq_refl eq_refl eq_refl eq_refl) as H.
  split; [reflexivity | split; [reflexivity | split; apply H]].
Defined.

(** ** Evaluation: square root *)

(** C8, as stated, fails: after ["16"], [√] and a lone ["."] the left
    operand is 16, whose root is 4, yet [calculate] reads the right operand
    first, fails on it, and resets with ["Error"]. *)
Lemma root_of_16_point_is_an_error :
  operation root_of_16_point = Some "√" /\
  float_of_string (previous_input root_of_16_point) = Some (F64.of_Z 16) /\
  math_sqrt (F64.of_Z 16) = Ok (F64.of_Z 4) /\
  current_input root_of_16_point = "." /\
  snd (calculate (L := no_libm) root_of_16_point) = VStr "Error" /\
  snd (calculate (L := no_libm) root_of_16_point) <> VInt 4 /\
  fst (calculate (L := no_libm) root_of_16_point)
    = clear_all root_of_16_point.
Proof.
  repeat split; try reflexivity. vm_compute. discriminate.
Qed.

(** C8, amended.  With [√] pending and a [current_input] that is empty or
    parses, [calculate] returns the square root of the left operand,
    whatever the right operand is: as an [int] when the root is integral,
    and it becomes [current_input].  After ["16"], [√] and [calculate] the
    result is 4 although nothing was typed after [√]. *)
Theorem sqrt_uses_left_operand_only :
  forall L : Libm,
    (forall (c : Calculator) (x y r : F64.float),
        operation c = Some "√" ->
        float_of_string (previous_input c) = Some x ->
        right_operand c x = Some y ->
        math_sqrt x = Ok r ->
        snd (calculate c) = trimmed r /\
        current_input (fst (calculate c)) = str (trimmed r)) /\
    F64.sqrt (F64.of_Z 16) = F64.of_Z 4 /\
    current_input root_of_16 = "" /\
    previous_input root_of_16 = "16" /\
    snd (calculate root_of_16) = VInt 4 /\
    current_input (fst (calculate root_of_16)) = "4".
Proof.
  intros L. split; [| repeat split; reflexivity].
  intros c x y r Hop Hx Hy Hr.
  assert (E : calculate c = (complete c (trimmed r), trimmed r)).
  { rewrite (calculate_pending c "√" x Hop eq_refl Hx).
    rewrite (evaluate_pending_operands c "√" x y Hop Hx Hy).
    unfold apply_operation. cbn [String.eqb Ascii.eqb Bool.eqb].
    rewrite Hr. cbn [bind]. rewrite trim_result_float. reflexivity. }
  rewrite E. split; reflexivity.
Qed.

Lemma sqrt_uses_left_operand_only_witness :
  operation root_of_16 = Some "√" /\
  math_sqrt (F64.of_Z 16) = Ok (F64.of_Z 4) /\
  snd (calculate (L := no_libm) root_of_16) = trimmed (F64.of_Z 4).
Proof.
  split; [reflexivity | split; [reflexivity |]].
  apply (proj1 (sqrt_uses_left_operand_only no_libm)
           root_of_16 (F64.of_Z 16) (F64.of_Z 16) (F64.of_Z 4));
    reflexivity.
Defined.

(** ** The memory register *)

(** C9. [memory_recall] writes [str(self.memory)], the float in full, into
    [current_input].  After [memory_clear], [memory_add] with ["5"] as the
    current input and [memory_recall], the current input is ["5.0"], not
    ["5"]. *)
Theorem memory_recall_gives_raw_float :
  (forall c : Calculator,
      memory_recall c = set_current_input (repr_float (memory c)) c) /\
  (forall c : Calculator,
      current_input c = "5" ->
      current_input (memory_recall (memory_add (memory_clear c))) = "5.0" /\
      current_input (memory_recall (memory_add (memory_clear c))) <> "5").
Proof.
  split; [reflexivity |].
  intros [cur prev op mem hist lastop] H. cbn in H. subst cur.
  split; [reflexivity | vm_compute; discriminate].
Qed.

Lemma memory_recall_gives_raw_float_witness :
  current_input (add_to_input "5" init) = "5" /\
  current_input
    (memory_recall (memory_add (memory_clear (add_to_input "5" init))))
    = "5.0".
Proof.
  split; [reflexivity |].
  apply (proj2 memory_recall_gives_raw_float (add_to_input "5" init)).
  reflexivity.
Defined.

(** ** Selecting an operation *)

(** C6. On an empty [current_input], [set_operation] does nothing.
    Otherwise it first evaluates the pending operation, if [operation] and
    [previous_input] are both set; then [previous_input] is the current
    input so obtained, [current_input] is empty, [operation] is [op] and
    [last_operation] is ["<previous_input> <op>"].  Typing 5 + 3 + logs
    ["5 + 3 = 8"] and leaves 8 as the left operand of the second [+]. *)
Theorem set_operation_evaluates_pending_first :
  forall L : Libm,
    (forall (op : string) (c : Calculator),
        current_input c = "" -> set_operation op c = c) /\
    (forall (op : string) (c : Calculator),
        current_input c <> "" ->
        previous_input (set_operation op c)
          = current_input (evaluated_first c) /\
        current_input (set_operation op c) = "" /\
        operation (set_operation op c) = Some op /\
        last_operation (set_operation op c)
          = previous_input (set_operation op c) ++ " " ++ op /\
        history (set_operation op c) = history (evaluated_first c) /\
        memory (set_operation op c) = memory (evaluated_first c)) /\
    (forall c : Calculator,
        pending c = true -> evaluated_first c = fst (calculate c)) /\
    (forall c : Calculator, pending c = false -> evaluated_first c = c) /\
    previous_input (set_operation "+" five_plus_three) = "8" /\
    last_operation (set_operation "+" five_plus_three) = "8 +" /\
    history (set_operation "+" five_plus_three) = ["5 + 3 = 8"] /\
    snd (calculate (enter "2" (set_operation "+" five_plus_three)))
      = VInt 10.
Proof.
  intros L. split; [| split; [| split; [| split]]].
  - intros op c H. unfold set_operation. now rewrite H.
  - intros op c H. unfold set_operation, evaluated_first.
    destruct (current_input c) eqn:E; [contradiction |].
    cbn [is_empty]. repeat split.
  - intros c H. unfold evaluated_first. now rewrite H.
  - intros c H. unfold evaluated_first. now rewrite H.
  - repeat split; reflexivity.
Qed.

Lemma set_operation_evaluates_pending_first_witness :
  current_input (five_plus_three (L := no_libm)) <> "" /\
  previous_input
    (set_operation (L := no_libm) "+" (five_plus_three (L := no_libm)))
    = current_input
        (evaluated_first (L := no_libm) (five_plus_three (L := no_libm))) /\
  set_operation (L := no_libm) "+" (set_operation (L := no_libm) "+" init)
    = set_operation (L := no_libm) "+" init.
Proof.
  assert (N : current_input (five_plus_three (L := no_libm)) <> "")
    by discriminate.
  split; [exact N | split].
  - apply (proj1 (proj2 (set_operation_evaluates_pending_first no_libm))
             "+" (five_plus_three (L := no_libm)) N).
  - apply (proj1 (set_operation_evaluates_pending_first no_libm)).
    reflexivity.
Defined.

(** ** Typing digits *)

Lemma append_assoc (a b c : string) : (a ++ b) ++ c = a ++ b ++ c.
Proof.
  induction a as [| ch a IH]; cbn; [reflexivity | now rewrite IH].
Qed.

Lemma count_append ch (a b : string) :
  count ch (a ++ b) = (count ch a + count ch b)%nat.
Proof.
  induction a as [| d a IH]; cbn; [reflexivity | rewrite IH; lia].
Qed.

Lemma contains_false_count ch s : contains ch s = false <-> count ch s = O.
Proof.
  induction s as [| d s IH]; cbn; [tauto |].
  destruct (Ascii.eqb ch d); cbn; [split; [discriminate | lia] | exact IH].
Qed.

(** A key is one character: a digit or the decimal point. *)
Lemma is_key_inv k :
  is_key k = true ->
  exists ch, k = String ch "" /\ (is_digit ch = true \/ ch = "."%char).
Proof.
  destruct k as [| ch [| ? ?]]; cbn; try discriminate.
  intros H. exists ch. split; [reflexivity |].
  apply orb_true_iff in H. destruct H as [H | H]; [now left | right].
  now apply Ascii.eqb_eq in H.
Qed.

Lemma digit_key_dots ch :
  is_digit ch = true -> dots (String ch "") = O.
Proof.
  intros H. unfold dots. cbn [count].
  destruct (Ascii.eqb "." ch) eqn:E; [| reflexivity].
  apply Ascii.eqb_eq in E. subst ch. discriminate.
Qed.

(** Appending a key to an input that is neither empty nor ["0"]. *)
Lemma add_to_input_appends k c :
  is_key k = true ->
  current_input c <> "" -> current_input c <> "0" ->
  (dots (current_input c ++ k) <= 1)%nat ->
  current_input (add_to_input k c) = current_input c ++ k.
Proof.
  intros K N0 N1 D. unfold add_to_input.
  apply String.eqb_neq in N1. rewrite N1. cbn [andb].
  destruct (k =? ".")%string eqn:E; cbn [andb]; [| reflexivity].
  apply String.eqb_eq in E. subst k.
  unfold dots in D. rewrite count_append in D. cbn in D.
  assert (C : count "." (current_input c) = O) by lia.
  apply contains_false_count in C. now rewrite C.
Qed.

Lemma append_key_long s k :
  s <> "" -> is_key k = true -> s ++ k <> "" /\ s ++ k <> "0".
Proof.
  intros N K. destruct (is_key_inv k K) as (ch & -> & _).
  destruct s as [| a [| b s]]; [contradiction | |]; cbn; split; discriminate.
Qed.

Lemma type_keys_appends ks :
  forall c,
    Forall (fun k => is_key k = true) ks ->
    current_input c <> "" -> current_input c <> "0" ->
    (dots (current_input c ++ join ks) <= 1)%nat ->
    current_input (type_keys ks c) = current_input c ++ join ks.
Proof.
  induction ks as [| k r IH]; intros c F N0 N1 D; cbn [type_keys join] in *.
  - clear. induction (current_input c) as [| a s IHs]; cbn; congruence.
  - inversion F as [| ? ? K Fr]; subst.
    rewrite <- append_assoc in D |- *.
    assert (Dk : (dots (current_input c ++ k) <= 1)%nat).
    { unfold dots in *. rewrite count_append in D. lia. }
    pose proof (add_to_input_appends k c K N0 N1 Dk) as E.
    destruct (append_key_long (current_input c) k N0 K) as [M0 M1].
    rewrite <- E in D, M0, M1 |- *.
    now apply IH.
Qed.

Lemma add_to_input_keeps_dots k c :
  is_key k = true ->
  (dots (current_input c) <= 1)%nat ->
  (dots (current_input (add_to_input k c)) <= 1)%nat.
Proof.
  intros K D. unfold add_to_input.
  destruct (is_key_inv k K) as (ch & -> & [Dg | ->]).
  - assert (E : (String ch "" =? ".")%string = false).
    { apply String.eqb_neq. intros H. injection H as ->. discriminate. }
    rewrite E. cbn [andb negb].
    destruct (current_input c =? "0")%string; cbn [andb current_input
      set_current_input].
    + rewrite (digit_key_dots ch Dg). lia.
    + unfold dots in *. rewrite count_append.
      fold (dots (String ch "")). rewrite (digit_key_dots ch Dg). lia.
  - cbn [String.eqb Ascii.eqb Bool.eqb andb negb].
    rewrite andb_false_r.
    destruct (contains "." (current_input c)) eqn:C; [exact D |].
    apply contains_false_count in C. cbn [current_input set_current_input].
    unfold dots. rewrite count_append, C. cbn. lia.
Qed.

(** C7. [add_to_input] ignores a ["."] when the input has one, replaces an
    input that is exactly ["0"] by any other value, and appends in every
    other case; it touches no other field.  For keys typed one after the
    other the input never has more than one decimal point; typed on a bare
    ["0"] with one decimal point at most the input is the keys as typed,
    the zeros typed first dropped; typed on any other non-empty input it
    is that input followed by the keys as typed. *)
Theorem add_to_input_builds_the_typed_number :
  (forall (v : string) (c : Calculator),
      (v = "." -> contains "." (current_input c) = true ->
       add_to_input v c = c) /\
      (v <> "." -> current_input c = "0" ->
       add_to_input v c = set_current_input v c) /\
      (v <> "." -> current_input c <> "0" ->
       add_to_input v c = set_current_input (current_input c ++ v) c) /\
      (v = "." -> contains "." (current_input c) = false ->
       add_to_input v c = set_current_input (current_input c ++ v) c)) /\
  (forall (ks : list string) (c : Calculator),
      Forall (fun k => is_key k = true) ks ->
      (dots (current_input c) <= 1)%nat ->
      (dots (current_input (type_keys ks c)) <= 1)%nat) /\
  (forall (ks : list string) (c : Calculator),
      Forall (fun k => is_key k = true) ks ->
      current_input c = "0" ->
      (dots (join ks) <= 1)%nat ->
      current_input (type_keys ks c) = typed_text ks) /\
  (forall (ks : list string) (c : Calculator),
      Forall (fun k => is_key k = true) ks ->
      current_input c <> "" -> current_input c <> "0" ->
      (dots (current_input c ++ join ks) <= 1)%nat ->
      current_input (type_keys ks c) = current_input c ++ join ks).
Proof.
  split; [| split; [| split]].
  - intros v c. unfold add_to_input. repeat split.
    + intros -> H. now rewrite H.
    + intros N H. apply String.eqb_neq in N. now rewrite N, H.
    + intros N H. apply String.eqb_neq in N, H. now rewrite N, H.
    + intros -> H. rewrite H. cbn. now rewrite andb_false_r.
  - induction ks as [| k r IH]; intros c F D; cbn [type_keys]; [exact D |].
    inversion F as [| ? ? K Fr]; subst.
    apply IH; [exact Fr | now apply add_to_input_keeps_dots].
  - induction ks as [| k r IH]; intros c F C D; cbn [type_keys typed_text];
      [exact C |].
    inversion F as [| ? ? K Fr]; subst.
    destruct (k =? "0")%string eqn:E0.
    + apply String.eqb_eq in E0. subst k. apply IH; [exact Fr | | exact D].
      unfold add_to_input. now rewrite C.
    + assert (D' : (dots (current_input (add_to_input k c) ++ join r) <= 1)%nat
                   /\ current_input (add_to_input k c) <> ""
                   /\ current_input (add_to_input k c) <> "0"
                   /\ current_input (add_to_input k c) ++ join r
                      = (if (k =? ".")%string then "0" ++ join (k :: r)
                         else join (k :: r))).
      { unfold add_to_input. rewrite C.
        destruct (is_key_inv k K) as (ch & -> & HK).
        apply String.eqb_neq in E0.
        destruct (String ch "" =? ".")%string eqn:E1.
        - apply String.eqb_eq in E1. injection E1 as ->.
          cbn. cbn in D. repeat split; try discriminate. exact D.
        - cbn. cbn in D. repeat split; try discriminate; try exact D.
          intros H. injection H as ->. now apply E0. }
      destruct D' as (D1 & N0 & N1 & R).
      rewrite <- R. now apply type_keys_appends.
  - intros ks c. apply type_keys_appends.
Qed.

Lemma add_to_input_builds_the_typed_number_witness :
  Forall (fun k => is_key k = true) ["0"; "0"; "1"; "."; "5"; "0"] /\
  current_input (type_keys ["0"; "0"; "1"; "."; "5"; "0"] init) = "1.50" /\
  add_to_input "." (type_keys ["."; "5"] init)
    = type_keys ["."; "5"] init /\
  (dots (current_input (type_keys ["."; "5"; "."; "."; "2"] init)) <= 1)%nat.
Proof.
  assert (F : forall ks, forallb is_key ks = true ->
                         Forall (fun k => is_key k = true) ks).
  { intros ks H. apply Forall_forall. intros k Hk.
    rewrite forallb_forall in H. now apply H. }
  destruct add_to_input_builds_the_typed_number as (S1 & S2 & S3 & S4).
  split; [now apply F | split; [| split]].
  - apply (S3 ["0"; "0"; "1"; "."; "5"; "0"] init);
      [now apply F | reflexivity | cbn; lia].
  - apply (proj1 (S1 "." (type_keys ["."; "5"] init)));
      reflexivity.
  - apply (S2 ["."; "5"; "."; "."; "2"] init); [now apply F | cbn; lia].
Defined.

(** ** The history *)

Lemma lastn_length {A : Type} n (l : list A) :
  (List.length (lastn n l) <= n)%nat.
Proof.
  unfold lastn. rewrite length_skipn. lia.
Qed.

Lemma lastn_short {A : Type} n (l : list A) :
  (List.length l <= n)%nat -> lastn n l = l.
Proof.
  intros H. unfold lastn. now replace (List.length l - n)%nat with O by lia.
Qed.

(** Trimming before and after an append is trimming once, after. *)
Lemma lastn_app_last {A : Type} (l : list A) (e : A) :
  lastn 10 (lastn 10 l ++ [e]) = lastn 10 (l ++ [e]).
Proof.
  destruct (Nat.le_gt_cases (List.length l) 10) as [H | H].
  - now rewrite (lastn_short 10 l H).
  - unfold lastn. rewrite !length_app, length_skipn. cbn [List.length].
    rewrite !skipn_app, skipn_skipn, length_skipn.
    replace (List.length l - (List.length l - 10) + 1 - 10)%nat
      with 1%nat by lia.
    replace (1 + (List.length l - 10))%nat
      with (List.length l + 1 - 10)%nat by lia.
    replace (1 - (List.length l - (List.length l - 10)))%nat with O by lia.
    now replace (List.length l + 1 - 10 - List.length l)%nat with O by lia.
Qed.

Lemma log_lastn e h :
  (List.length h <= 10)%nat -> log e h = lastn 10 (h ++ [e])%list.
Proof.
  intros H. unfold log, lastn. rewrite length_app. cbn [List.length].
  destruct (10 <? List.length h + 1)%nat eqn:E.
  - apply Nat.ltb_lt in E.
    replace (List.length h + 1 - 10)%nat with 1%nat by lia.
    now destruct (h ++ [e])%list.
  - apply Nat.ltb_ge in E.
    now replace (List.length h + 1 - 10)%nat with O by lia.
Qed.

Lemma log_length e h :
  (List.length h <= 10)%nat -> (List.length (log e h) <= 10)%nat.
Proof.
  intros H. rewrite (log_lastn e h H). apply lastn_length.
Qed.

Lemma toggle_sign_frame c :
  exists s, toggle_sign c = set_current_input s c.
Proof.
  unfold toggle_sign.
  destruct (current_input c) as [| [[] [] [] [] [] [] [] []] s]; eauto.
Qed.

Lemma percentage_frame c :
  exists s, percentage c = set_current_input s c.
Proof.
  unfold percentage. destruct (float (current_input c)); eauto.
  exists (current_input c). now destruct c.
Qed.

Lemma add_to_input_frame v c :
  exists s, add_to_input v c = set_current_input s c.
Proof.
  unfold add_to_input.
  destruct (_ && _); [exists (current_input c); now destruct c |].
  destruct (_ && _); eauto.
Qed.

Lemma memory_add_history c : history (memory_add c) = history c.
Proof.
  unfold memory_add. now destruct (float (current_input c)).
Qed.

Lemma memory_subtract_history c : history (memory_subtract c) = history c.
Proof.
  unfold memory_subtract. now destruct (float (current_input c)).
Qed.

Section History.
Context {L : Libm}.

Lemma calculate_history c :
  history (fst (calculate c))
    = history_after (calculate_effect c) (history c).
Proof.
  unfold calculate, calculate_effect.
  destruct (negb (truthy (operation c)) || is_empty (previous_input c));
    [reflexivity |].
  now destruct (evaluate_pending c) as [[r |] | []].
Qed.

Lemma step_history a c :
  history (step a c) = history_after (effect_of a c) (history c).
Proof.
  destruct a as [v | op | | | | | | | | |]; cbn [step effect_of history_after].
  - now destruct (add_to_input_frame v c) as [s ->].
  - unfold set_operation.
    destruct (is_empty (current_input c)); [reflexivity |].
    cbn [negb andb history].
    destruct (pending c); [apply calculate_history | reflexivity].
  - apply calculate_history.
  - now rewrite clear_entry_sets_input.
  - reflexivity.
  - apply memory_add_history.
  - apply memory_subtract_history.
  - reflexivity.
  - reflexivity.
  - now destruct (percentage_frame c) as [s ->].
  - now destruct (toggle_sign_frame c) as [s ->].
Qed.

Lemma step_history_bound a c :
  (List.length (history c) <= 10)%nat ->
  (List.length (history (step a c)) <= 10)%nat.
Proof.
  intros H. rewrite step_history.
  destruct (effect_of a c); cbn [history_after List.length];
    [exact H | now apply log_length | lia].
Qed.

Lemma history_after_lastn ef es :
  history_after ef (lastn 10 es) = lastn 10 (record ef es).
Proof.
  destruct ef; cbn [history_after record]; [reflexivity | | reflexivity].
  rewrite log_lastn by apply lastn_length. apply lastn_app_last.
Qed.

Lemma run_history l :
  forall c es,
    history c = lastn 10 es ->
    history (run l c) = lastn 10 (entries_of l c es).
Proof.
  induction l as [| a r IH]; intros c es H; cbn [run entries_of];
    [exact H |].
  apply IH. rewrite step_history, H. apply history_after_lastn.
Qed.

End History.

(** C2. The history never has more than 10 entries, in any state that
    calls of the methods reach from a new calculator.  It is at each point
    the last 10 of the entries logged since it was last emptied, in the
    order of the evaluations; so once eleven are logged the first is gone
    and the other ten remain.  Eleven sums from 1 leave the ten lines from
    ["2 + 1 = 3"] to ["11 + 1 = 12"]. *)
Theorem history_is_the_last_ten_entries :
  forall L : Libm,
    (forall c : Calculator,
        reachable c -> (List.length (history c) <= 10)%nat) /\
    (forall l : list action,
        history (run l init) = lastn 10 (entries_of l init [])) /\
    (forall (l : list action) (e : string) (rest : list string),
        entries_of l init [] = e :: rest ->
        List.length rest = 10%nat ->
        history (run l init) = rest) /\
    entries_of eleven_sums init []
      = "1 + 1 = 2" :: history (run eleven_sums init) /\
    history (run eleven_sums init)
      = ["2 + 1 = 3"; "3 + 1 = 4"; "4 + 1 = 5"; "5 + 1 = 6"; "6 + 1 = 7";
         "7 + 1 = 8"; "8 + 1 = 9"; "9 + 1 = 10"; "10 + 1 = 11";
         "11 + 1 = 12"].
Proof.
  intros L. split; [| split; [| split; [| split]]].
  - intros c R. induction R as [| a c R IH]; [cbn; lia |].
    now apply step_history_bound.
  - intros l. now apply run_history.
  - intros l e rest E N. rewrite (run_history l init [] eq_refl), E.
    unfold lastn. cbn [List.length]. rewrite N. reflexivity.
  - vm_compute. reflexivity.
  - vm_compute. reflexivity.
Qed.

Lemma history_is_the_last_ten_entries_witness :
  reachable (L := no_libm) (run (L := no_libm) eleven_sums init) /\
  List.length (history (run (L := no_libm) eleven_sums init)) = 10%nat /\
  history (run (L := no_libm) eleven_sums init)
    = List.tl (entries_of (L := no_libm) eleven_sums init []).
Proof.
  assert (R : forall l c, reachable (L := no_libm) c ->
                          reachable (L := no_libm) (run (L := no_libm) l c)).
  { induction l as [| a r IH]; intros c H; [exact H |].
    apply IH. now constructor. }
  split; [apply R; constructor | split; [vm_compute; reflexivity |]].
  apply (proj1 (proj2 (proj2 (history_is_the_last_ten_entries no_libm)))
           eleven_sums "1 + 1 = 2"
           (List.tl (entries_of (L := no_libm) eleven_sums init [])));
    vm_compute; reflexivity.
Defined.

(** ** What [str] writes *)

Lemma head_is_append ch (a b : string) :
  head_is ch a = false -> (a = "" -> head_is ch b = false) ->
  head_is ch (a ++ b) = false.
Proof.
  destruct a as [| x a]; cbn; intros Ha Hb; [now apply Hb | exact Ha].
Qed.

Lemma append_nonempty (a b : string) :
  (is_empty a = false \/ is_empty b = false) -> is_empty (a ++ b) = false.
Proof.
  destruct a as [| x a]; cbn; [intros [H | H]; [discriminate | exact H] |].
  reflexivity.
Qed.

(** A sign in front of a text that starts with no minus. *)
Lemma shown_signed (neg : bool) (body : string) :
  is_empty body = false -> head_is "-" body = false ->
  shown (sign_prefix false neg ++ body) = true.
Proof.
  intros N P. destruct neg; cbn.
  - now rewrite N, P.
  - destruct body as [| a r]; [discriminate |]. cbn in P |- *. now rewrite P.
Qed.

Lemma shown_plain (s : string) :
  is_empty s = false -> head_is "-" s = false -> shown s = true.
Proof.
  exact (shown_signed false s).
Qed.

Lemma of_pos_plain p : head_is "-" (of_pos p) = false.
Proof.
  unfold of_pos. now destruct (Pos.to_uint p).
Qed.

Lemma of_pos_nonempty p : is_empty (of_pos p) = false.
Proof.
  unfold of_pos. pose proof (Unsigned.to_uint_nonnil p) as H.
  destruct (Pos.to_uint p); [contradiction | reflexivity ..].
Qed.

Lemma rstrip_zeros_plain s :
  head_is "-" s = false -> head_is "-" (rstrip_zeros s) = false.
Proof.
  destruct s as [| a r]; cbn; [reflexivity |].
  now destruct (Ascii.eqb a "0" && is_empty (rstrip_zeros r)).
Qed.

Lemma shortest_plain m e : head_is "-" (fst (shortest m e)) = false.
Proof.
  unfold shortest. destruct (F64.magnitude m e) as [P Q].
  destruct (shortest_from _ _ _ _ _ _) as [d k]. cbn [fst].
  apply rstrip_zeros_plain, of_pos_plain.
Qed.

Lemma zeros_plain n : head_is "-" (zeros n) = false.
Proof.
  now destruct n.
Qed.

(** The digits laid out start with no minus, and with [.0] asked for they
    are not empty. *)
Lemma layout_plain dot0 ds D :
  head_is "-" ds = false -> head_is "-" (layout dot0 ds D) = false.
Proof.
  intros P. unfold layout.
  destruct ((D <=? -4) || (16 <? D)).
  - destruct ds as [| a [| b r]]; [reflexivity | exact P | exact P].
  - destruct (D <=? 0); [reflexivity |].
    destruct (D <? Z.of_nat (String.length ds)).
    + destruct (Z.to_nat D), ds; try reflexivity. exact P.
    + apply head_is_append; [exact P | intros _].
      apply head_is_append; [apply zeros_plain | intros _].
      now destruct dot0.
Qed.

Lemma layout_nonempty ds D : is_empty (layout true ds D) = false.
Proof.
  unfold layout.
  destruct ((D <=? -4) || (16 <? D)).
  - apply append_nonempty. now right.
  - destruct (D <=? 0); [reflexivity |].
    destruct (D <? Z.of_nat (String.length ds)).
    + apply append_nonempty. now right.
    + apply append_nonempty. right. apply append_nonempty. now right.
Qed.

(** Every float prints as a sign and a body that starts with no minus. *)
Lemma format_float_body dot0 plus x :
  exists body,
    format_float dot0 plus x = sign_prefix plus (F64.sign_bit x) ++ body /\
    head_is "-" body = false /\
    (dot0 = true -> is_empty body = false).
Proof.
  destruct x as [s | s | | s m e]; cbn [format_float F64.sign_bit].
  - exists (layout dot0 "0" 1). split; [reflexivity | split].
    + now apply layout_plain.
    + intros ->. apply layout_nonempty.
  - now exists "inf".
  - now exists "nan".
  - pose proof (shortest_plain m e) as P.
    destruct (shortest m e) as [ds D]. cbn [fst] in P.
    exists (layout dot0 ds D). split; [reflexivity | split].
    + now apply layout_plain.
    + intros ->. apply layout_nonempty.
Qed.

Lemma repr_float_shown x : shown (repr_float x) = true.
Proof.
  unfold repr_float.
  destruct (format_float_body true false x) as (body & -> & P & N).
  apply shown_signed; [now apply N | exact P].
Qed.

Lemma of_Z_shown z : shown (of_Z z) = true.
Proof.
  destruct z as [| p | p]; cbn [of_Z]; [reflexivity | |].
  - apply shown_plain; [apply of_pos_nonempty | apply of_pos_plain].
  - apply (shown_signed true); [apply of_pos_nonempty | apply of_pos_plain].
Qed.

Lemma str_complex_shown re im : shown (str_complex re im) = true.
Proof.
  assert (B : shown (format_float false false im ++ "j") = true).
  { destruct (format_float_body false false im) as (body & -> & P & _).
    rewrite append_assoc. apply shown_signed.
    - apply append_nonempty. now right.
    - apply head_is_append; [exact P | reflexivity]. }
  unfold str_complex. destruct re as [[] | s | | s m e]; try reflexivity.
  exact B.
Qed.

Lemma str_shown v : result_shape v -> shown (str v) = true.
Proof.
  destruct v as [x | z | re im | s]; cbn [str result_shape].
  - intros _. apply repr_float_shown.
  - intros _. apply of_Z_shown.
  - intros _. apply str_complex_shown.
  - now intros ->.
Qed.

(** ** The current input across a session *)

Section Results.
Context {L : Libm}.

Lemma float_pow_shape x y v : float_pow x y = Ok v -> result_shape v.
Proof.
  unfold float_pow.
  repeat match goal with
         | |- context [if ?b then _ else _] => destruct b
         end;
    try destruct (complex_pow x y);
    try destruct (libm_pow _ y);
    cbn [bind]; intros H; try discriminate; injection H as <-; exact I.
Qed.

Lemma apply_operation_shape op x y r v :
  apply_operation op x y = Some r -> r = Ok v -> result_shape v.
Proof.
  unfold apply_operation.
  repeat match goal with
         | |- context [if (?a =? ?b)%string then _ else _] =>
             destruct (a =? b)%string
         end;
    intros H; try discriminate; injection H as <-.
  - intros E. injection E as <-. exact I.
  - intros E. injection E as <-. exact I.
  - intros E. injection E as <-. exact I.
  - intros E. injection E as <-. now destruct (negb _).
  - apply float_pow_shape.
  - destruct (math_sqrt x); cbn [bind]; intros E;
      [injection E as <-; exact I | discriminate].
Qed.

Lemma trim_result_shape v w :
  trim_result v = Ok w -> result_shape v -> result_shape w.
Proof.
  destruct v as [x | z | re im | s].
  - rewrite trim_result_float. intros H _. injection H as <-.
    unfold trimmed. destruct x; try exact I. now destruct (is_integer _).
  - intros H. now injection H as <-.
  - intros H. now injection H as <-.
  - intros H. now injection H as <-.
Qed.

Lemma evaluate_pending_shape c w :
  evaluate_pending c = Ok (Some w) -> result_shape w.
Proof.
  unfold evaluate_pending.
  destruct (float (previous_input c)) as [x |]; cbn [bind]; [| discriminate].
  destruct (if is_empty (current_input c) then Ok x
            else float (current_input c)) as [y |]; cbn [bind];
    [| discriminate].
  destruct (apply_operation (operation_text c) x y) as [r |] eqn:A;
    [| discriminate].
  destruct r as [v |]; cbn [bind]; [| discriminate].
  destruct (trim_result v) as [w' |] eqn:T; cbn [bind]; [| discriminate].
  intros H. injection H as <-.
  apply (trim_result_shape v w' T).
  exact (apply_operation_shape _ x y _ v A eq_refl).
Qed.

Lemma calculate_invariant c :
  input_invariant c -> input_invariant (fst (calculate c)).
Proof.
  intros I. unfold calculate.
  destruct (negb (truthy (operation c)) || is_empty (previous_input c));
    [exact I |].
  destruct (evaluate_pending c) as [[w |] | e] eqn:E; cbn [fst].
  - left. cbn [complete current_input].
    apply str_shown, (evaluate_pending_shape c w E).
  - exact I.
  - destruct e; now left.
Qed.

Lemma set_operation_invariant op c :
  is_operator op = true ->
  input_invariant c -> input_invariant (set_operation op c).
Proof.
  intros O I. unfold set_operation.
  destruct (is_empty (current_input c)); [exact I |].
  right. cbn [current_input operation]. split; [now left |].
  destruct op; [discriminate | reflexivity].
Qed.

End Results.

Lemma add_to_input_invariant k c :
  is_key k = true -> input_invariant c -> input_invariant (add_to_input k c).
Proof.
  intros K I. destruct (is_key_inv k K) as (ch & -> & HK).
  assert (P : Ascii.eqb ch "-" = false).
  { destruct HK as [D | ->]; [| reflexivity].
    destruct (Ascii.eqb ch "-") eqn:E; [| reflexivity].
    apply Ascii.eqb_eq in E. subst ch. discriminate. }
  unfold add_to_input.
  destruct (_ && contains "." (current_input c)); [exact I |].
  destruct (_ && negb _).
  - left. cbn. now rewrite P.
  - left. cbn [set_current_input current_input].
    destruct I as [S | [[E | E] _]].
    + destruct (current_input c) as [| a [| b r]]; cbn in S |- *;
        try discriminate.
      * destruct (Ascii.eqb a "-"); [discriminate | reflexivity].
      * exact S.
    + rewrite E. cbn. now rewrite P.
    + rewrite E. cbn. now rewrite P.
Qed.

Lemma toggle_sign_cases c :
  (exists rest, current_input c = String "-" rest /\
                toggle_sign c = set_current_input rest c) \/
  (head_is "-" (current_input c) = false /\
   toggle_sign c = set_current_input (String "-" (current_input c)) c).
Proof.
  unfold toggle_sign.
  destruct (current_input c) as [| [[] [] [] [] [] [] [] []] s];
    try (right; split; reflexivity).
  left. now exists s.
Qed.

Lemma toggle_sign_invariant c :
  input_invariant c -> input_invariant (toggle_sign c).
Proof.
  intros I.
  destruct (toggle_sign_cases c) as [(rest & E & ->) | (P & ->)];
    unfold input_invariant in *; cbn [set_current_input current_input
                                       operation].
  - rewrite E in I. destruct I as [S | [[F | F] T]].
    + cbn in S. apply andb_true_iff in S. destruct S as [N M].
      left. apply shown_plain.
      * now destruct (is_empty rest).
      * now destruct (head_is "-" rest).
    + discriminate.
    + injection F as ->. right. split; [now left | exact T].
  - destruct I as [S | [[F | F] T]].
    + left. cbn. rewrite P.
      destruct (current_input c); [discriminate | reflexivity].
    + rewrite F. right. split; [now right | exact T].
    + rewrite F in P. discriminate.
Qed.

Lemma set_current_input_shown s c :
  shown s = true -> input_invariant (set_current_input s c).
Proof.
  intros S. now left.
Qed.

Lemma set_memory_invariant m c :
  input_invariant c -> input_invariant (set_memory m c).
Proof.
  intros I. exact I.
Qed.

Section Invariant.
Context {L : Libm}.

Lemma step_invariant a c :
  dispatched a = true -> input_invariant c -> input_invariant (step a c).
Proof.
  destruct a as [v | op | | | | | | | | |]; cbn [dispatched step]; intros D I.
  - now apply add_to_input_invariant.
  - now apply set_operation_invariant.
  - now apply calculate_invariant.
  - rewrite clear_entry_sets_input. now apply set_current_input_shown.
  - now left.
  - unfold memory_add. destruct (float (current_input c)); [| exact I].
    now apply set_memory_invariant.
  - unfold memory_subtract. destruct (float (current_input c)); [| exact I].
    now apply set_memory_invariant.
  - apply set_current_input_shown, repr_float_shown.
  - now apply set_memory_invariant.
  - unfold percentage. destruct (float (current_input c)); [| exact I].
    apply set_current_input_shown, repr_float_shown.
  - now apply toggle_sign_invariant.
Qed.

Lemma key_reachable_invariant c : key_reachable c -> input_invariant c.
Proof.
  induction 1 as [| a c D R IH]; [now left | now apply step_invariant].
Qed.

End Invariant.

(** C4, as stated, fails: [set_operation] on a new calculator is a call
    that the [+] key makes, and it leaves the current input empty. *)
Lemma set_operation_empties_current_input :
  key_reachable (L := no_libm) (step (L := no_libm) (SetOperation "+") init) /\
  current_input (step (L := no_libm) (SetOperation "+") init) = "".
Proof.
  split; [| reflexivity].
  apply key_reachable_step; [reflexivity | apply key_reachable_init].
Qed.

(** C4, amended.  The current input of a new calculator is ["0"].  In every
    state that the keys reach, the current input is empty only while an
    operation is selected: [set_operation] empties it, and it stays empty
    until a digit, an evaluation or a clear fills it again.  With no
    operation selected it is never empty. *)
Theorem current_input_empty_only_while_pending :
  forall L : Libm,
    current_input init = "0" /\
    (forall c : Calculator,
        key_reachable c -> current_input c = "" ->
        truthy (operation c) = true) /\
    (forall c : Calculator,
        key_reachable c -> truthy (operation c) = false ->
        current_input c <> "") /\
    (forall (op : string) (c : Calculator),
        current_input c <> "" -> current_input (set_operation op c) = "").
Proof.
  intros L.
  assert (K : forall c, key_reachable c -> current_input c = "" ->
                        truthy (operation c) = true).
  { intros c R E. destruct (key_reachable_invariant c R) as [S | [_ T]].
    - rewrite E in S. discriminate.
    - exact T. }
  split; [reflexivity | split; [exact K | split]].
  - intros c R T E. rewrite (K c R E) in T. discriminate.
  - intros op c N. unfold set_operation.
    destruct (current_input c); [contradiction | reflexivity].
Qed.

Lemma current_input_empty_only_while_pending_witness :
  key_reachable (L := no_libm) (step (L := no_libm) (SetOperation "+") init) /\
  current_input (step (L := no_libm) (SetOperation "+") init) = "" /\
  truthy (operation (step (L := no_libm) (SetOperation "+") init)) = true.
Proof.
  assert (R : key_reachable (L := no_libm)
                (step (L := no_libm) (SetOperation "+") init)).
  { apply key_reachable_step; [reflexivity | apply key_reachable_init]. }
  split; [exact R | split; [reflexivity |]].
  apply (proj1 (proj2 (current_input_empty_only_while_pending no_libm))
           _ R).
  reflexivity.
Defined.

(** ** Evaluation: the four binary operators *)

Lemma two_power_positive e : e < 0 -> Zpos (Z.to_pos (2 ^ (- e))) = 2 ^ (- e).
Proof.
  intros H. apply Z2Pos.id. apply Z.pow_pos_nonneg; lia.
Qed.

(** [is_integer] holds exactly of the floats whose value is an integer. *)
Lemma is_integer_integral x : is_integer x = true <-> integral x.
Proof.
  unfold integral.
  destruct x as [s | s | | s m e]; cbn [is_integer F64.to_Q].
  - split; [intros _ | reflexivity]. exists 0, 0%Q. now split.
  - split; [discriminate | intros (z & q & H & _); discriminate].
  - split; [discriminate | intros (z & q & H & _); discriminate].
  - destruct (0 <=? e) eqn:E; cbn [orb].
    + split; [intros _ | reflexivity].
      eexists. eexists. split; [reflexivity | reflexivity].
    + apply Z.leb_gt in E. pose proof (two_power_positive e E) as P.
      assert (D : 0 < 2 ^ (- e)) by (apply Z.pow_pos_nonneg; lia).
      split.
      * intros H. apply Z.eqb_eq in H.
        apply Z.mod_divide in H; [| lia]. destruct H as [k H].
        exists (if s then - k else k). eexists. split; [reflexivity |].
        unfold Qeq. cbn [Qnum Qden inject_Z]. rewrite P.
        destruct s; lia.
      * intros (z & q & H & Q). injection H as <-.
        unfold Qeq in Q. cbn [Qnum Qden inject_Z] in Q. rewrite P in Q.
        apply Z.eqb_eq. apply Z.mod_divide; [lia |].
        exists (if s then - z else z). destruct s; lia.
Qed.

(** An integral float is returned as the integer that it is; any other
    float is returned as it stands. *)
Lemma trimmed_integral x :
  is_integer x = true ->
  exists z q, trimmed x = VInt z /\ F64.to_Q x = Some q /\
              (q == inject_Z z)%Q.
Proof.
  destruct x as [s | s | | s m e]; try discriminate.
  - intros _. exists 0, 0%Q. now repeat split.
  - intros H. unfold trimmed. rewrite H.
    cbn [is_integer F64.to_Q] in H |- *.
    destruct (0 <=? e) eqn:E.
    + eexists. eexists. split; [reflexivity | split; [reflexivity |]].
      unfold Qeq. cbn [Qnum Qden inject_Z]. destruct s; lia.
    + cbn [orb] in H. apply Z.leb_gt in E.
      pose proof (two_power_positive e E) as P.
      assert (D : 0 < 2 ^ (- e)) by (apply Z.pow_pos_nonneg; lia).
      apply Z.eqb_eq in H.
      pose proof (Z.div_mod (Zpos m) (2 ^ (- e))) as M.
      eexists. eexists. split; [reflexivity | split; [reflexivity |]].
      unfold Qeq. cbn [Qnum Qden inject_Z]. rewrite P.
      destruct s; nia.
Qed.

Lemma trimmed_fractional x : is_integer x = false -> trimmed x = VFloat x.
Proof.
  destruct x as [s | s | | s m e]; try discriminate; try reflexivity.
  intros H. unfold trimmed. now rewrite H.
Qed.

Lemma trim_result_returned v : trim_result v = Ok (returned v).
Proof.
  destruct v; [apply trim_result_float | reflexivity ..].
Qed.

Lemma enter_frame a :
  forall c, exists s, enter a c = set_current_input s c.
Proof.
  induction a as [| k r IH]; intros c; cbn [enter].
  - exists (current_input c). now destruct c.
  - destruct (add_to_input_frame (String k "") c) as [s ->].
    destruct (IH (set_current_input s c)) as [s' ->]. now exists s'.
Qed.

Section Binary.
Context {L : Libm}.

Lemma apply_operation_float_op op x y :
  In op ["+"; "-"; "*"; "^"] ->
  apply_operation op x y = Some (float_op op x y).
Proof.
  intros [<- | [<- | [<- | [<- | []]]]]; reflexivity.
Qed.

(** The state in which [calculate] finds the two operands typed. *)
Lemma typed_fields a op b c :
  pending c = false ->
  current_input (enter a c) <> "" ->
  previous_input (typed a op b c) = current_input (enter a c) /\
  operation (typed a op b c) = Some op /\
  history (typed a op b c) = history c /\
  memory (typed a op b c) = memory c.
Proof.
  intros P N. unfold typed.
  destruct (enter_frame b (set_operation op (enter a c))) as [s ->].
  cbn [set_current_input previous_input operation history memory].
  unfold set_operation.
  destruct (current_input (enter a c)) eqn:E; [contradiction |].
  cbn [is_empty].
  destruct (enter_frame a c) as [s' F]. rewrite F in E |- *.
  unfold pending in *.
  cbn [set_current_input previous_input operation history memory
       current_input] in *.
  rewrite P. cbn [previous_input operation history memory current_input].
  now rewrite E.
Qed.

End Binary.

(** C5, as stated, fails.  0.1 + 0.2 evaluates to a float whose value is
    not three tenths.  And 1.15 * 100, whose value is the integer 115,
    evaluates to a float short of 115, which is written with a fractional
    part. *)
Lemma float_results_are_not_exact :
  previous_input (typed (L := no_libm) "0.1" "+" "0.2" init) = "0.1" /\
  current_input (typed (L := no_libm) "0.1" "+" "0.2" init) = "0.2" /\
  decimal_value "0.1" = Some (Qmake 1 10) /\
  decimal_value "0.2" = Some (Qmake 2 10) /\
  snd (calculate (L := no_libm) (typed (L := no_libm) "0.1" "+" "0.2" init))
    = VFloat (S754_finite false 5404319552844596 (-54)) /\
  F64.to_Q (S754_finite false 5404319552844596 (-54))
    = Some (Qmake 5404319552844596 18014398509481984) /\
  ~ (Qmake 5404319552844596 18014398509481984
     == Qmake 1 10 + Qmake 2 10)%Q /\
  decimal_value "1.15" = Some (Qmake 115 100) /\
  decimal_value "100" = Some (inject_Z 100) /\
  (Qmake 115 100 * inject_Z 100 == inject_Z 115)%Q /\
  snd (calculate (L := no_libm) (typed (L := no_libm) "1.15" "*" "100" init))
    = VFloat (S754_finite false 8092405580431359 (-46)) /\
  current_input
    (fst (calculate (L := no_libm)
            (typed (L := no_libm) "1.15" "*" "100" init)))
    = "114.99999999999999".
Proof.
  repeat split; try (vm_compute; reflexivity).
  vm_compute. discriminate.
Qed.

(** C5, amended.  When [a], an operator among [+ - * ^] and [b] are typed
    on a calculator with nothing pending, and the two texts parse as the
    floats [x] and [y] (the right operand is [x] again when no [b] was
    typed), [calculate] returns Python's float result of [x op y], a
    binary64 computation and not the exact one.  It returns it, and writes
    it into the current input, as an integer exactly when the float result
    is finite with an integer value, the integer being that value;
    otherwise the float itself is kept.  5 + 3 gives the integer 8. *)
Theorem binary_operators_give_float_results :
  forall L : Libm,
    (forall (a op b : string) (c : Calculator) (x y : F64.float) (v : value),
        pending c = false ->
        In op ["+"; "-"; "*"; "^"] ->
        float_of_string (current_input (enter a c)) = Some x ->
        right_operand (typed a op b c) x = Some y ->
        float_op op x y = Ok v ->
        snd (calculate (typed a op b c)) = returned v /\
        current_input (fst (calculate (typed a op b c)))
          = str (returned v)) /\
    (forall x : F64.float,
        is_integer x = true ->
        exists z q, returned (VFloat x) = VInt z /\
                    F64.to_Q x = Some q /\ (q == inject_Z z)%Q) /\
    (forall x : F64.float,
        is_integer x = false -> returned (VFloat x) = VFloat x) /\
    (forall x : F64.float, is_integer x = true <-> integral x) /\
    snd (calculate (typed "5" "+" "3" init)) = VInt 8 /\
    current_input (fst (calculate (typed "5" "+" "3" init))) = "8" /\
    history (fst (calculate (typed "5" "+" "3" init))) = ["5 + 3 = 8"].
Proof.
  intros L. split; [| split; [| split; [| split]]].
  - intros a op b c x y v P O X Y V.
    pose proof (float_of_string_nonempty _ _ X) as N.
    assert (N' : current_input (enter a c) <> "").
    { intros E. rewrite E in N. discriminate. }
    destruct (typed_fields a op b c P N') as (Fp & Fo & _ & _).
    assert (Ne : is_empty op = false).
    { destruct O as [<- | [<- | [<- | [<- | []]]]]; reflexivity. }
    rewrite <- Fp in X.
    assert (E : calculate (typed a op b c)
                = (complete (typed a op b c) (returned v), returned v)).
    { rewrite (calculate_pending _ op x Fo Ne X).
      rewrite (evaluate_pending_operands _ op x y Fo X Y).
      rewrite (apply_operation_float_op op x y O), V. cbn [bind].
      now rewrite trim_result_returned. }
    rewrite E. split; reflexivity.
  - exact trimmed_integral.
  - exact trimmed_fractional.
  - exact is_integer_integral.
  - repeat split; vm_compute; reflexivity.
Qed.

Lemma binary_operators_give_float_results_witness :
  pending init = false /\
  In "+" ["+"; "-"; "*"; "^"] /\
  float_of_string (current_input (enter "5" init)) = Some (F64.of_Z 5) /\
  snd (calculate (L := no_libm) (typed (L := no_libm) "5" "+" "3" init))
    = returned (VFloat (F64.of_Z 8)) /\
  integral (F64.of_Z 8).
Proof.
  destruct (binary_operators_give_float_results no_libm)
    as (S1 & _ & _ & S4 & _).
  split; [reflexivity | split; [now left | split; [reflexivity | split]]].
  - apply (S1 "5" "+" "3" init (F64.of_Z 5) (F64.of_Z 3)
              (VFloat (F64.of_Z 8)));
      [reflexivity | now left | reflexivity | reflexivity | reflexivity].
  - apply S4. reflexivity.
Defined.

(** * Further properties of the engine *)

(** ** The memory register is written by its own keys only *)

Lemma set_current_input_twice s t c :
  set_current_input s (set_current_input t c) = set_current_input s c.
Proof.
  reflexivity.
Qed.

Lemma set_current_input_same c : set_current_input (current_input c) c = c.
Proof.
  now destruct c.
Qed.

Section Memory.
Context {L : Libm}.

Lemma calculate_memory c : memory (fst (calculate c)) = memory c.
Proof.
  unfold calculate.
  destruct (negb (truthy (operation c)) || is_empty (previous_input c));
    [reflexivity |].
  now destruct (evaluate_pending c) as [[r |] | []].
Qed.

Lemma set_operation_memory op c : memory (set_operation op c) = memory c.
Proof.
  unfold set_operation.
  destruct (is_empty (current_input c)); [reflexivity |]. cbn [memory].
  destruct (pending c); [apply calculate_memory | reflexivity].
Qed.

Lemma step_memory a c :
  touches_memory a = false -> memory (step a c) = memory c.
Proof.
  destruct a as [v | op | | | | | | | | |]; cbn [touches_memory step];
    intros H; try discriminate.
  - now destruct (add_to_input_frame v c) as [s ->].
  - apply set_operation_memory.
  - apply calculate_memory.
  - now rewrite clear_entry_sets_input.
  - reflexivity.
  - reflexivity.
  - now destruct (percentage_frame c) as [s ->].
  - now destruct (toggle_sign_frame c) as [s ->].
Qed.

End Memory.

(** X1. No call but [memory_add], [memory_subtract] and [memory_clear]
    writes [memory]: not [clear_all], not a [calculate] that fails and
    resets, not [set_operation] with its chained evaluation.  A session
    without those three calls ends with the memory it started with. *)
Theorem memory_is_written_by_memory_keys_only :
  forall L : Libm,
    (forall (a : action) (c : Calculator),
        touches_memory a = false -> memory (step a c) = memory c) /\
    (forall (l : list action) (c : Calculator),
        forallb (fun a => negb (touches_memory a)) l = true ->
        memory (run l c) = memory c).
Proof.
  intros L. split; [exact step_memory |].
  induction l as [| a r IH]; intros c H; [reflexivity |].
  cbn [forallb] in H. apply andb_true_iff in H. destruct H as [Ha Hr].
  cbn [run]. rewrite (IH _ Hr). apply step_memory.
  now destruct (touches_memory a).
Qed.

Lemma memory_is_written_by_memory_keys_only_witness :
  forallb (fun a => negb (touches_memory a)) five_by_zero_session = true /\
  memory (run (L := no_libm) five_by_zero_session
            (memory_add (add_to_input "7" init)))
    = F64.of_Z 7.
Proof.
  split; [reflexivity |].
  rewrite (proj2 (memory_is_written_by_memory_keys_only no_libm)
             five_by_zero_session (memory_add (add_to_input "7" init)));
    vm_compute; reflexivity.
Defined.

(** ** Changing the sign twice *)

Lemma toggle_sign_twice c :
  double_minus (current_input c) = false -> toggle_sign (toggle_sign c) = c.
Proof.
  intros D.
  destruct (toggle_sign_cases c) as [(rest & E & ->) | (P & ->)].
  - rewrite E in D. cbn [double_minus] in D.
    rewrite Ascii.eqb_refl in D. cbn [andb] in D.
    destruct (toggle_sign_cases (set_current_input rest c))
      as [(r2 & E2 & _) | (_ & ->)].
    + cbn [set_current_input current_input] in E2. rewrite E2 in D.
      cbn [head_is] in D. rewrite Ascii.eqb_refl in D. discriminate.
    + cbn [set_current_input current_input].
      rewrite set_current_input_twice, <- E. apply set_current_input_same.
  - destruct (toggle_sign_cases
                (set_current_input (String "-" (current_input c)) c))
      as [(r2 & E2 & ->) | (P2 & _)].
    + cbn [set_current_input current_input] in E2. injection E2 as <-.
      rewrite set_current_input_twice. apply set_current_input_same.
    + cbn [set_current_input current_input head_is] in P2.
      rewrite Ascii.eqb_refl in P2. discriminate.
Qed.

Lemma input_invariant_single_minus c :
  input_invariant c -> double_minus (current_input c) = false.
Proof.
  intros [S | [[E | E] _]]; try (rewrite E; reflexivity).
  destruct (current_input c) as [| a r]; [reflexivity |].
  cbn [shown double_minus] in *.
  destruct (Ascii.eqb a "-"); [| reflexivity].
  apply andb_true_iff in S. destruct S as [_ S].
  now destruct (head_is "-" r).
Qed.

(** X2. [toggle_sign] undoes itself unless the input starts with two
    minus signs: then two calls strip both.  No state that the keys reach
    has such an input, so there two calls always give the state back. *)
Theorem toggle_sign_twice_gives_the_state_back :
  (forall c : Calculator,
      double_minus (current_input c) = false ->
      toggle_sign (toggle_sign c) = c) /\
  (forall (L : Libm) (c : Calculator),
      key_reachable c -> toggle_sign (toggle_sign c) = c) /\
  (forall (c : Calculator) (s : string),
      current_input c = String "-" (String "-" s) ->
      current_input (toggle_sign (toggle_sign c)) = s).
Proof.
  split; [exact toggle_sign_twice | split].
  - intros L c R. apply toggle_sign_twice, input_invariant_single_minus.
    now apply key_reachable_invariant.
  - intros c s H. unfold toggle_sign at 2. rewrite H.
    unfold toggle_sign. reflexivity.
Qed.

Lemma toggle_sign_twice_gives_the_state_back_witness :
  double_minus (current_input (add_to_input "8" init)) = false /\
  toggle_sign (toggle_sign (add_to_input "8" init)) = add_to_input "8" init /\
  current_input
    (toggle_sign (toggle_sign (set_current_input "--8" init))) = "8".
Proof.
  destruct toggle_sign_twice_gives_the_state_back as (T1 & _ & T3).
  split; [reflexivity | split].
  - apply T1. reflexivity.
  - apply T3. reflexivity.
Defined.

(** ** Evaluating again, and evaluation that fails *)

Section Again.
Context {L : Libm}.

Lemma calculate_no_operation c :
  operation c = None ->
  calculate c
    = (c, VStr (if is_empty (current_input c) then "0"
                else current_input c)).
Proof.
  intros H. unfold calculate. now rewrite H.
Qed.

(** [calculate] leaves the state alone or leaves no operation behind. *)
Lemma calculate_cases c :
  fst (calculate c) = c \/ operation (fst (calculate c)) = None.
Proof.
  unfold calculate.
  destruct (negb (truthy (operation c)) || is_empty (previous_input c));
    [now left |].
  destruct (evaluate_pending c) as [[r |] | []]; cbn [fst];
    (now left) || (now right).
Qed.

Lemma nonempty_is_empty s : s <> "" -> is_empty s = false.
Proof.
  destruct s; [contradiction | reflexivity].
Qed.

Lemma unknown_operator op x y :
  is_operator op = false -> apply_operation op x y = None.
Proof.
  unfold is_operator. cbn [existsb]. intros H.
  repeat (apply orb_false_iff in H; destruct H as [? H]).
  unfold apply_operation.
  repeat match goal with
         | E : (op =? ?s)%string = false |- _ => rewrite E; clear E
         end.
  reflexivity.
Qed.

Lemma known_operator op x y :
  is_operator op = true -> apply_operation op x y <> None.
Proof.
  unfold is_operator. cbn [existsb]. intros H.
  unfold apply_operation.
  repeat match goal with
         | |- context [if (op =? ?s)%string then _ else _] =>
             destruct (op =? s)%string; [discriminate |]
         end.
  discriminate.
Qed.


End Again.

(** X3. A second [calculate] right after a first changes nothing: the
    first one leaves the state alone or leaves no operation pending, so the
    operation is never applied again.  With no operation left, the second
    call returns the current input, or ["0"] for an empty one. *)
Theorem calculate_twice_is_calculate_once :
  forall (L : Libm) (c : Calculator),
    fst (calculate (fst (calculate c))) = fst (calculate c) /\
    (operation (fst (calculate c)) = None ->
     snd (calculate (fst (calculate c)))
       = VStr (if is_empty (current_input (fst (calculate c))) then "0"
               else current_input (fst (calculate c)))).
Proof.
  intros L c. split.
  - destruct (calculate_cases c) as [H | H].
    + now rewrite H.
    + now rewrite (calculate_no_operation _ H).
  - intros H. now rewrite (calculate_no_operation _ H).
Qed.

Lemma calculate_twice_is_calculate_once_witness :
  operation (fst (calculate (L := no_libm) (five_plus_three (L := no_libm))))
    = None /\
  snd (calculate (L := no_libm)
         (fst (calculate (L := no_libm) (five_plus_three (L := no_libm)))))
    = VStr "8".
Proof.
  split; [reflexivity |].
  apply (proj2 (calculate_twice_is_calculate_once no_libm
                  (five_plus_three (L := no_libm)))).
  reflexivity.
Defined.

(** X4. With a pending operation that is none of [+ - * / ^ √] and two
    operands that parse, [calculate] returns ["Error"] and resets nothing:
    the state, pending operation included, is as before. *)
Theorem unknown_operator_is_an_error_without_reset :
  forall (L : Libm) (c : Calculator) (op : string) (x y : F64.float),
    operation c = Some op ->
    is_empty op = false ->
    is_operator op = false ->
    float_of_string (previous_input c) = Some x ->
    right_operand c x = Some y ->
    calculate c = (c, VStr "Error").
Proof.
  intros L c op x y Hop Hne Hun Hx Hy.
  rewrite (calculate_pending c op x Hop Hne Hx).
  rewrite (evaluate_pending_operands c op x y Hop Hx Hy).
  now rewrite (unknown_operator op x y Hun).
Qed.

Lemma unknown_operator_is_an_error_without_reset_witness :
  operation percent_of_5 = Some "%" /\
  is_operator "%" = false /\
  calculate (L := no_libm) percent_of_5 = (percent_of_5, VStr "Error").
Proof.
  split; [reflexivity | split; [reflexivity |]].
  apply (unknown_operator_is_an_error_without_reset no_libm percent_of_5
           "%" (F64.of_Z 5) (F64.of_Z 5)); reflexivity.
Defined.





(** ** Operators in a row, and what follows a failure *)

(** X7. An operator selected right after another is ignored: the first
    [set_operation] empties the current input, so the second does nothing
    and the first operator stays pending. *)
Theorem second_operator_is_ignored :
  forall (L : Libm) (op1 op2 : string) (c : Calculator),
    current_input c <> "" ->
    set_operation op2 (set_operation op1 c) = set_operation op1 c /\
    operation (set_operation op2 (set_operation op1 c)) = Some op1.
Proof.
  intros L op1 op2 c H.
  assert (E : current_input (set_operation op1 c) = "").
  { unfold set_operation. now rewrite (nonempty_is_empty _ H). }
  assert (O : operation (set_operation op1 c) = Some op1).
  { unfold set_operation. now rewrite (nonempty_is_empty _ H). }
  assert (S : set_operation op2 (set_operation op1 c) = set_operation op1 c).
  { unfold set_operation at 1. now rewrite E. }
  rewrite S. now split.
Qed.

Lemma second_operator_is_ignored_witness :
  current_input (add_to_input "5" init) <> "" /\
  operation
    (set_operation (L := no_libm) "-"
       (set_operation (L := no_libm) "+" (add_to_input "5" init)))
    = Some "+".
Proof.
  assert (N : current_input (add_to_input "5" init) <> "") by discriminate.
  split; [exact N |].
  apply (second_operator_is_ignored no_libm "+" "-" _ N).
Defined.



(** ** Input that does not parse, and input after a result *)



(** X10. A digit typed after a completed evaluation goes on the end of the
    result: no new number is started, unless the result reads ["0"], which
    the digit replaces. *)
Theorem digit_after_a_result_extends_it :
  forall (L : Libm) (c : Calculator) (r : value) (k : string),
    pending c = true ->
    evaluate_pending c = Ok (Some r) ->
    k <> "." ->
    (str r <> "0" ->
     current_input (add_to_input k (fst (calculate c))) = str r ++ k) /\
    (str r = "0" ->
     current_input (add_to_input k (fst (calculate c))) = k).
Proof.
  intros L c r k Hp He Hk.
  assert (E : calculate c = (complete c r, r)).
  { unfold calculate. unfold pending in Hp.
    apply andb_true_iff in Hp. destruct Hp as [T P].
    rewrite T. destruct (is_empty (previous_input c)); [discriminate |].
    cbn [negb orb]. now rewrite He. }
  rewrite E. cbn [fst]. unfold add_to_input.
  apply String.eqb_neq in Hk. rewrite Hk.
  cbn [andb negb complete current_input]. split; intros H.
  - apply String.eqb_neq in H. now rewrite H.
  - now rewrite H.
Qed.

Lemma digit_after_a_result_extends_it_witness :
  pending (five_plus_three (L := no_libm)) = true /\
  current_input
    (add_to_input "5"
       (fst (calculate (L := no_libm) (five_plus_three (L := no_libm)))))
    = "85".
Proof.
  split; [reflexivity |].
  apply (proj1 (digit_after_a_result_extends_it no_libm
                  (five_plus_three (L := no_libm)) (VInt 8) "5"
                  eq_refl eq_refl ltac:(discriminate))).
  discriminate.
Defined.

(** ** The label of the pending operation *)

Lemma spaced_nonempty (a b : string) : is_empty (a ++ " " ++ b) = false.
Proof.
  apply append_nonempty. now right.
Qed.

Section Label.
Context {L : Libm}.

Lemma calculate_label c :
  label_in_step c -> label_in_step (fst (calculate c)).
Proof.
  intros H. unfold calculate.
  destruct (negb (truthy (operation c)) || is_empty (previous_input c));
    [exact H |].
  destruct (evaluate_pending c) as [[r |] | []]; cbn [fst];
    exact H || reflexivity.
Qed.

Lemma set_operation_label op c :
  label_in_step c -> label_in_step (set_operation op c).
Proof.
  intros H. unfold set_operation.
  destruct (is_empty (current_input c)); [exact H | reflexivity].
Qed.

Lemma step_label a c : label_in_step c -> label_in_step (step a c).
Proof.
  intros H. destruct a as [v | op | | | | | | | | |]; cbn [step].
  - now destruct (add_to_input_frame v c) as [s ->].
  - now apply set_operation_label.
  - now apply calculate_label.
  - now rewrite clear_entry_sets_input.
  - reflexivity.
  - unfold memory_add. now destruct (float (current_input c)).
  - unfold memory_subtract. now destruct (float (current_input c)).
  - exact H.
  - exact H.
  - now destruct (percentage_frame c) as [s ->].
  - now destruct (toggle_sign_frame c) as [s ->].
Qed.

Lemma reachable_label c : reachable c -> label_in_step c.
Proof.
  induction 1 as [| a c R IH]; [reflexivity | now apply step_label].
Qed.

End Label.

(** X11. In every state that calls of the methods reach, [last_operation]
    is in step with [operation]: it reads ["<previous_input> <op>"] while
    [op] is pending and is empty when nothing is.  So the small label shows
    the pending operation whenever there is one, and nothing on a
    calculator with no operation and no history. *)
Theorem label_follows_the_pending_operation :
  forall (L : Libm) (c : Calculator),
    reachable c ->
    (forall op : string,
        operation c = Some op ->
        last_operation c = previous_input c ++ " " ++ op /\
        Gui.history_text c = previous_input c ++ " " ++ op) /\
    (operation c = None ->
     last_operation c = "" /\ (history c = [] -> Gui.history_text c = "")).
Proof.
  intros L c R. pose proof (reachable_label c R) as H.
  unfold label_in_step in H. split.
  - intros op E. rewrite E in H. split; [exact H |].
    unfold Gui.history_text. now rewrite H, spaced_nonempty.
  - intros E. rewrite E in H. split; [exact H |].
    intros N. unfold Gui.history_text. now rewrite H, N.
Qed.

Lemma label_follows_the_pending_operation_witness :
  reachable (L := no_libm) (five_by_zero) /\
  operation five_by_zero = Some "/" /\
  Gui.history_text five_by_zero = "5 /".
Proof.
  assert (R : reachable (L := no_libm) five_by_zero).
  { apply (reachable_step (AddToInput "0")).
    apply (reachable_step (SetOperation "/")).
    apply (reachable_step (AddToInput "5")). apply reachable_init. }
  split; [exact R | split; [reflexivity |]].
  apply (proj1 (label_follows_the_pending_operation no_libm _ R) "/").
  reflexivity.
Defined.

(** ** The operators that the keys can leave pending *)

Section Operators.
Context {L : Libm}.

Lemma calculate_operator c :
  operator_known c -> operator_known (fst (calculate c)).
Proof.
  intros H. destruct (calculate_cases c) as [E | E].
  - now rewrite E.
  - intros op O. rewrite E in O. discriminate.
Qed.

Lemma step_operator a c :
  dispatched a = true -> operator_known c -> operator_known (step a c).
Proof.
  destruct a as [v | op | | | | | | | | |]; cbn [dispatched step];
    intros D H.
  - now destruct (add_to_input_frame v c) as [s ->].
  - unfold set_operation.
    destruct (is_empty (current_input c)); [exact H |].
    intros op' O. cbn [operation] in O. now injection O as <-.
  - now apply calculate_operator.
  - now rewrite clear_entry_sets_input.
  - intros op O. discriminate.
  - unfold memory_add. now destruct (float (current_input c)).
  - unfold memory_subtract. now destruct (float (current_input c)).
  - exact H.
  - exact H.
  - now destruct (percentage_frame c) as [s ->].
  - now destruct (toggle_sign_frame c) as [s ->].
Qed.

Lemma key_reachable_operator c : key_reachable c -> operator_known c.
Proof.
  induction 1 as [| a c D R IH]; [intros op O; discriminate |].
  now apply step_operator.
Qed.

(** With a known operator pending the [try] does not end in the early
    return. *)
Lemma evaluate_pending_not_early c op :
  operation c = Some op -> is_operator op = true ->
  evaluate_pending c <> Ok None.
Proof.
  intros O K. unfold evaluate_pending, operation_text. rewrite O.
  destruct (float (previous_input c)) as [x |]; cbn [bind];
    [| discriminate].
  destruct (if is_empty (current_input c) then Ok x
            else float (current_input c)) as [y |]; cbn [bind];
    [| discriminate].
  pose proof (known_operator op x y K) as N.
  destruct (apply_operation op x y) as [r |]; [| contradiction].
  destruct r as [v |]; cbn [bind]; [| discriminate].
  destruct (trim_result v); cbn [bind]; discriminate.
Qed.

End Operators.

(** X12. In the states that the keys reach, a pending operation is always
    one of the six operators.  So there the answer ["Error"] of
    [calculate] always comes with the reset: the branch that answers
    ["Error"] and resets nothing needs an operator that no key sends. *)
Theorem keypad_error_always_resets :
  forall (L : Libm) (c : Calculator),
    key_reachable c ->
    (forall op : string, operation c = Some op -> is_operator op = true) /\
    (pending c = true ->
     snd (calculate c) = VStr "Error" ->
     fst (calculate c) = clear_all c).
Proof.
  intros L c R. pose proof (key_reachable_operator c R) as K.
  split; [exact K |].
  intros P. unfold calculate. unfold pending in P.
  apply andb_true_iff in P. destruct P as [T P]. rewrite T.
  destruct (is_empty (previous_input c)); [discriminate |].
  cbn [negb orb].
  destruct (evaluate_pending c) as [[r |] | e] eqn:E; cbn [fst snd].
  - intros ->. pose proof (evaluate_pending_shape c _ E) as S.
    cbn in S. discriminate.
  - destruct (operation c) as [op |] eqn:O; [| discriminate].
    now destruct (evaluate_pending_not_early c op O (K op O)).
  - now destruct e.
Qed.

Lemma keypad_error_always_resets_witness :
  key_reachable (L := no_libm) root_of_16_point /\
  pending root_of_16_point = true /\
  snd (calculate (L := no_libm) root_of_16_point) = VStr "Error" /\
  fst (calculate (L := no_libm) root_of_16_point)
    = clear_all root_of_16_point.
Proof.
  assert (R : key_reachable (L := no_libm) root_of_16_point).
  { apply (key_reachable_step (AddToInput ".")); [reflexivity |].
    apply (key_reachable_step (SetOperation "√")); [reflexivity |].
    apply (key_reachable_step (AddToInput "6")); [reflexivity |].
    apply (key_reachable_step (AddToInput "1")); [reflexivity |].
    apply key_reachable_init. }
  split; [exact R | split; [reflexivity | split; [reflexivity |]]].
  apply (proj2 (keypad_error_always_resets no_libm _ R)); reflexivity.
Defined.

(** ** Buttons and keys *)

Lemma button_dispatched t :
  In t Gui.button_texts ->
  exists a, Gui.button_action t = Some a /\ dispatched a = true.
Proof.
  unfold Gui.button_texts, Gui.buttons. cbn [List.map fst In]. intros H.
  repeat (destruct H as [<- | H];
          [eexists; split; reflexivity |]).
  contradiction.
Qed.

Lemma key_dispatched char t :
  Gui.lookup char Gui.key_mapping = Some t ->
  exists a, Gui.button_action t = Some a /\ dispatched a = true.
Proof.
  unfold Gui.key_mapping. cbn [Gui.lookup].
  repeat match goal with
         | |- (if (char =? ?k)%string then _ else _) = _ -> _ =>
             destruct (char =? k)%string;
             [intros H; injection H as <-; eexists; split; reflexivity |]
         end.
  discriminate.
Qed.

Section Window.
Context {L : Libm}.

Lemma gui_reachable_key_reachable c :
  Gui.gui_reachable c -> key_reachable c.
Proof.
  induction 1 as [| t c I R IH | char c R IH].
  - apply key_reachable_init.
  - unfold Gui.on_button_click.
    destruct (button_dispatched t I) as (a & -> & D).
    now apply key_reachable_step.
  - unfold Gui.on_key_press.
    destruct (Gui.lookup char Gui.key_mapping) as [t |] eqn:E; [| exact IH].
    unfold Gui.on_button_click.
    destruct (key_dispatched char t E) as (a & -> & D).
    now apply key_reachable_step.
Qed.

Lemma key_reachable_reachable c : key_reachable c -> reachable c.
Proof.
  induction 1 as [| a c D R IH]; [apply reachable_init |].
  now apply reachable_step.
Qed.

Lemma reachable_history_bound c :
  reachable c -> (List.length (history c) <= 10)%nat.
Proof.
  induction 1 as [| a c R IH]; [cbn; lia | now apply step_history_bound].
Qed.

End Window.

(** X13. Every button of the window and every mapped key calls a method
    with an argument that the keypad alphabet allows: a single digit or
    ["."] for [add_to_input], one of the six operators for
    [set_operation].  A key that is not mapped changes nothing.  So every
    state that clicks and key presses produce is one that the keypad calls
    reach: there the history has ten lines at most, the current input is
    empty only while an operation is selected, and the pending operation
    is one of the six. *)
Theorem window_sends_keypad_calls_only :
  forall L : Libm,
    (forall (t : string) (c : Calculator),
        In t Gui.button_texts ->
        exists a, Gui.button_action t = Some a /\ dispatched a = true /\
                  Gui.on_button_click t c = step a c) /\
    (forall (char t : string) (c : Calculator),
        Gui.lookup char Gui.key_mapping = Some t ->
        exists a, Gui.key_action char = Some a /\ dispatched a = true /\
                  Gui.on_key_press char c = step a c) /\
    (forall (char : string) (c : Calculator),
        Gui.lookup char Gui.key_mapping = None ->
        Gui.on_key_press char c = c) /\
    (forall c : Calculator,
        Gui.gui_reachable c ->
        key_reachable c /\
        (List.length (history c) <= 10)%nat /\
        (current_input c = "" -> truthy (operation c) = true) /\
        (forall op, operation c = Some op -> is_operator op = true)).
Proof.
  intros L. split; [| split; [| split]].
  - intros t c I. destruct (button_dispatched t I) as (a & E & D).
    exists a. unfold Gui.on_button_click. now rewrite E.
  - intros char t c E. destruct (key_dispatched char t E) as (a & A & D).
    exists a. unfold Gui.key_action, Gui.on_key_press, Gui.on_button_click.
    now rewrite E, A.
  - intros char c E. unfold Gui.on_key_press. now rewrite E.
  - intros c G. pose proof (gui_reachable_key_reachable c G) as R.
    split; [exact R | split; [| split]].
    + apply reachable_history_bound, key_reachable_reachable, R.
    + intros E. destruct (key_reachable_invariant c R) as [S | [_ T]];
        [rewrite E in S; discriminate | exact T].
    + exact (key_reachable_operator c R).
Qed.

Lemma window_sends_keypad_calls_only_witness :
  In "√" Gui.button_texts /\
  Gui.lookup "q" Gui.key_mapping = Some "√" /\
  Gui.lookup "x" Gui.key_mapping = None /\
  Gui.gui_reachable (L := no_libm) tiny /\
  key_reachable (L := no_libm) tiny /\
  Gui.on_key_press (L := no_libm) "x" tiny = tiny /\
  (exists a, Gui.key_action "q" = Some a /\ dispatched a = true /\
             Gui.on_key_press (L := no_libm) "q" tiny
               = step (L := no_libm) a tiny).
Proof.
  destruct (window_sends_keypad_calls_only no_libm) as (W1 & W2 & W3 & W4).
  assert (B : forall t, existsb (String.eqb t) Gui.button_texts = true ->
                        In t Gui.button_texts).
  { intros t H. apply existsb_exists in H. destruct H as (u & I & E).
    apply String.eqb_eq in E. now subst u. }
  assert (G : Gui.gui_reachable (L := no_libm) tiny).
  { unfold tiny. repeat apply Gui.gui_key.
    repeat (apply Gui.gui_click; [apply B; reflexivity |]).
    apply Gui.gui_init. }
  split; [apply B; reflexivity | split; [reflexivity | split;
    [reflexivity | split; [exact G | split; [| split]]]]].
  - apply (W4 tiny G).
  - apply W3. reflexivity.
  - apply (W2 "q" "√" tiny). reflexivity.
Defined.

(** X14. No key press calls [memory_subtract], [memory_clear] or
    [toggle_sign], and no button calls [percentage] or [toggle_sign]:
    percentages are on the keyboard only, and the branch of
    [_on_button_click] for ["±"] is taken by no button and no key. *)
Theorem calls_out_of_reach :
  (forall (char : string) (a : action),
      Gui.key_action char = Some a ->
      a <> MemorySubtract /\ a <> MemoryClear /\ a <> ToggleSign) /\
  (forall (t : string) (a : action),
      In t Gui.button_texts -> Gui.button_action t = Some a ->
      a <> Percentage /\ a <> ToggleSign) /\
  Gui.key_action "%" = Some Percentage /\
  Gui.button_action "±" = Some ToggleSign.
Proof.
  split; [| split; [| split; reflexivity]].
  - intros char a. unfold Gui.key_action, Gui.key_mapping.
    cbn [Gui.lookup].
    repeat match goal with
           | |- match (if (char =? ?k)%string then _ else _) with _ => _ end
                = _ -> _ =>
               destruct (char =? k)%string;
               [intros H; vm_compute in H; injection H as <-;
                repeat split; discriminate |]
           end.
    discriminate.
  - intros t a. unfold Gui.button_texts, Gui.buttons.
    cbn [List.map fst In]. intros H.
    repeat (destruct H as [<- | H];
            [intros E; vm_compute in E; injection E as <-;
             split; discriminate |]).
    contradiction.
Qed.

Lemma calls_out_of_reach_witness :
  Gui.key_action "m" = Some MemoryAdd /\
  MemoryAdd <> MemorySubtract /\
  In "M-" Gui.button_texts /\
  MemorySubtract <> Percentage.
Proof.
  destruct calls_out_of_reach as (K & B & _).
  split; [reflexivity | split; [| split]].
  - apply (K "m" MemoryAdd). reflexivity.
  - cbn. tauto.
  - apply (B "M-" MemorySubtract); [cbn; tauto | reflexivity].
Defined.

(** ** What the two labels show *)

Lemma contains_append ch (a b : string) :
  contains ch (a ++ b) = contains ch a || contains ch b.
Proof.
  induction a as [| x a IH]; cbn; [reflexivity |].
  now rewrite IH, orb_assoc.
Qed.







Lemma last_log e h : List.last (log e h) "" = e /\ log e h <> [].
Proof.
  unfold log.
  destruct (10 <? List.length (h ++ [e]))%nat eqn:E.
  - destruct h as [| a h]; [discriminate |]. cbn [app List.tl].
    split; [apply last_last | now destruct h].
  - split; [apply last_last | now destruct h].
Qed.

Lemma before_append ch (a b : string) :
  contains ch a = false -> Gui.before ch (a ++ String ch b) = a.
Proof.
  induction a as [| x a IH]; cbn [append Gui.before contains].
  - now rewrite Ascii.eqb_refl.
  - intros H. apply orb_false_iff in H. destruct H as [E C].
    rewrite Ascii.eqb_sym, E. now rewrite IH.
Qed.

Lemma rstrip_ws_space s : Gui.rstrip_ws (s ++ " ") = Gui.rstrip_ws s.
Proof.
  induction s as [| a r IH]; cbn [append Gui.rstrip_ws];
    [reflexivity | now rewrite IH].
Qed.

(** X16. After an evaluation that completes, the small label shows the
    line just logged up to its result: left operand, operator and right
    operand, without the ["="] and with no space at either end, provided
    none of the three holds a ["="] itself. *)
Theorem label_after_evaluation_is_the_operation :
  forall (L : Libm) (c : Calculator) (op : string) (r : value),
    operation c = Some op ->
    pending c = true ->
    evaluate_pending c = Ok (Some r) ->
    contains "=" (previous_input c) = false ->
    contains "=" op = false ->
    contains "=" (current_input c) = false ->
    Gui.history_text (fst (calculate c))
      = Gui.strip (previous_input c ++ " " ++ op ++ " " ++ current_input c).
Proof.
  intros L c op r Hop Hp He Cp Co Cc.
  assert (E : calculate c = (complete c r, r)).
  { unfold calculate. unfold pending in Hp.
    apply andb_true_iff in Hp. destruct Hp as [T P].
    rewrite T. destruct (is_empty (previous_input c)); [discriminate |].
    cbn [negb orb]. now rewrite He. }
  rewrite E. cbn [fst]. unfold Gui.history_text.
  cbn [complete last_operation history is_empty negb].
  destruct (last_log (history_entry c r) (history c)) as [La Ne].
  destruct (log (history_entry c r) (history c)) as [| e0 h0] eqn:Lg;
    [contradiction |].
  rewrite La. unfold history_entry, operation_text. rewrite Hop.
  replace (previous_input c ++ " " ++ op ++ " " ++ current_input c
             ++ " = " ++ str r)
    with ((previous_input c ++ " " ++ op ++ " " ++ current_input c ++ " ")
            ++ String "=" (" " ++ str r))
    by (now rewrite !append_assoc).
  rewrite before_append.
  - unfold Gui.strip.
    replace (previous_input c ++ " " ++ op ++ " " ++ current_input c ++ " ")
      with ((previous_input c ++ " " ++ op ++ " " ++ current_input c) ++ " ")
      by (now rewrite !append_assoc).
    now rewrite rstrip_ws_space.
  - rewrite !contains_append, Cp, Co, Cc. reflexivity.
Qed.

Lemma label_after_evaluation_is_the_operation_witness :
  operation five_by_zero = Some "/" /\
  pending five_by_zero = true /\
  Gui.history_text (fst (calculate (L := no_libm) five_by_zero)) = "5 / 0".
Proof.
  split; [reflexivity | split; [reflexivity |]].
  rewrite (label_after_evaluation_is_the_operation no_libm five_by_zero
             "/" (VStr "Error: Div/0"));
    reflexivity.
Defined.

(** ** An operator pressed while an operation is pending *)

Section Chain.
Context {L : Libm}.



End Chain.


